(** * Pod-sandbox teardown: [pkg/server/sandbox_stop.go]

    A shallow embedding of [StopPodSandbox], [stopSandboxContainer],
    [waitSandboxStop], [teardownPod] and [cleanupUnknownSandbox].

    The five functions only sequence calls to collaborators (the sandbox
    and container stores, the task runtime, the exit monitor, the network
    plugin, the network-namespace object, the Go runtime).  A function is
    therefore embedded as a finite tree of collaborator calls: every node
    names the call that the source makes at that point, and branches on
    the value the collaborator answers.  Running a tree against a handler
    records the calls and their answers in order.

    Conventions:
    - a Go [error] result is [option error], a [(T, error)] result is
      [T + error]; [errors.Wrap] and friends keep their cause, so that
      [errdefs.IsNotFound] sees through them;
    - a [defer] runs after the returned value has been computed, last
      deferred first;
    - the [select] of [waitSandboxStop] is one call whose answer is the
      case that the Go runtime chose;
    - constants and helpers of the package that are declared in other
      files ([unknownExitCode], [killContainerTimeout],
      [getPodCNILabels], [toCNIPortMappings]) are the fields of
      [Package]. *)

From Stdlib Require Import String List ZArith Bool Sorted.
Import ListNotations.
Local Open Scope string_scope.
Local Open Scope list_scope.

(** ** Data *)

(** Opaque references to objects that live outside this file. *)
Definition Context := nat.        (* context.Context *)
Definition CancelFunc := nat.     (* context.CancelFunc *)
Definition Chan := nat.           (* a receive-only channel *)
Definition Timer := nat.          (* *time.Timer *)
Definition Duration := Z.         (* time.Duration *)
Definition Time := Z.             (* time.Time *)
Definition Signal := Z.           (* syscall.Signal *)

Module syscall.
Definition SIGKILL : Signal := 9%Z.
End syscall.

Module sandboxstore.
(** Modelled from the spec: the lifecycle states of a sandbox
    ([Ready], [NotReady], [Unknown]); the declaration of
    [sandboxstore.State] is not part of the file. *)
Inductive State := StateReady | StateNotReady | StateUnknown.

Definition State_eqb (a b : State) : bool :=
  match a, b with
  | StateReady, StateReady
  | StateNotReady, StateNotReady
  | StateUnknown, StateUnknown => true
  | _, _ => false
  end.

(** What [sandbox.Status.Get()] returns; only [State] is read. *)
Module Status.
Record t := Build { State : State }.
End Status.

Definition StatusStorage := nat.
Definition NetNS := nat.
End sandboxstore.

Module runtime.
Record PortMapping := {
  Protocol : Z; ContainerPort : Z; HostPort : Z; HostIp : string }.

Record PodSandboxConfig := {
  Name : string; Namespace : string; PortMappings : list PortMapping }.

(** Generated getters accept a nil receiver. *)
Definition GetPortMappings (config : option PodSandboxConfig) : list PortMapping :=
  match config with
  | Some cfg => PortMappings cfg
  | None => []
  end.

Record StopPodSandboxRequest := { PodSandboxId : string }.

Definition GetPodSandboxId (r : option StopPodSandboxRequest) : string :=
  match r with
  | Some req => PodSandboxId req
  | None => ""
  end.

Inductive StopPodSandboxResponse := StopPodSandboxResponse_empty.
End runtime.

Module containerd.
Definition Container := nat.
Definition Task := nat.
End containerd.

Module cni.
Definition CNI := nat.
Definition Labels := list (string * string).
Record PortMapping := {
  HostPort : Z; ContainerPort : Z; Protocol : string; HostIP : string }.
End cni.

Module Sandbox.
Record t := {
  ID : string;
  Config : option runtime.PodSandboxConfig;
  NetNSPath : string;
  Status : sandboxstore.StatusStorage;
  Container : containerd.Container;
  NetNS : option sandboxstore.NetNS;      (* nil for a host-network sandbox *)
  Stopped : Chan }.
End Sandbox.

Module Container.
Record t := { ID : string; SandboxID : string }.
End Container.

Import sandboxstore.

(** ** Errors

    A Go [error] that is not nil.  A function returning [error] returns
    [option error]; one returning [(T, error)] returns [T + error]. *)

Inductive fmtarg :=
| ArgString (s : string)
| ArgState (s : State).

Inductive error :=
| ErrNotFound                                   (* errdefs.ErrNotFound *)
| ErrCanceled                                   (* context.Canceled *)
| ErrDeadlineExceeded                           (* context.DeadlineExceeded *)
| ErrOther (msg : string)                       (* any other collaborator error *)
| New (msg : string)                            (* errors.New *)
| Errorf (format : string) (args : list fmtarg)
| Wrap (cause : error) (msg : string)
| Wrapf (cause : error) (format : string) (args : list fmtarg).

(** [errors.Cause]: strip the wrappers. *)
Fixpoint Cause (err : error) : error :=
  match err with
  | Wrap cause _ => Cause cause
  | Wrapf cause _ _ => Cause cause
  | _ => err
  end.

(** [errdefs.IsNotFound]. *)
Definition IsNotFound (err : error) : bool :=
  match Cause err with
  | ErrNotFound => true
  | _ => false
  end.

Module eventtypes.
Record TaskExit := {
  ContainerID : string;
  ID : string;
  Pid : Z;
  ExitStatus : Z;
  ExitedAt : Time }.
End eventtypes.

(** The receiver.  Stores, event monitor and runtime are reached through
    calls; the nullable plugin reference is the one field that
    [teardownPod] tests. *)
Record criService := { netPlugin : option cni.CNI }.

(** Declarations this file uses from the rest of the package. *)
Class Package := {
  unknownExitCode : Z;
  killContainerTimeout : Duration;
  getPodCNILabels : string -> option runtime.PodSandboxConfig -> cni.Labels;
  toCNIPortMappings : list runtime.PortMapping -> list cni.PortMapping }.

(** ** Collaborator calls *)

Inductive select_case :=
| case_ctx_Done        (* <-ctx.Done() *)
| case_timer           (* <-timeoutTimer.C *)
| case_Stopped.        (* <-sandbox.Stopped() *)

Inductive call : Type :=
| sandboxStore_Get (id : string)
| containerStore_List
| stopContainer (ctx : Context) (container : Container.t) (timeout : Duration)
| unmountSandboxFiles (id : string) (config : option runtime.PodSandboxConfig)
| Status_Get (s : StatusStorage)
| Container_Task (ctx : Context) (container : containerd.Container)
| Task_Wait (ctx : Context) (task : containerd.Task)
| Task_Pid (task : containerd.Task)
| Task_Kill (ctx : Context) (task : containerd.Task) (sig : Signal)
| startExitMonitor (ctx : Context) (id : string) (pid : Z) (exitCh : Chan)
| NamespacedContext
| context_Background
| context_WithCancel (parent : Context)
| cancel (f : CancelFunc)
| chan_recv (ch : Chan)
| time_NewTimer (d : Duration)
| Timer_Stop (timer : Timer)
| select_wait (ctx : Context) (timer : Timer) (stopped : Chan)
| Context_Err (ctx : Context)
| time_Now
| handleSandboxExit (ctx : Context) (e : eventtypes.TaskExit) (sandbox : Sandbox.t)
| NetNS_Closed (netns : NetNS)
| NetNS_Remove (netns : NetNS)
| netPlugin_Remove (plugin : cni.CNI) (id path : string)
    (labels : cni.Labels) (portMappings : list cni.PortMapping)
| logrus_Infof (format : string) (args : list fmtarg).

(** The type of the answer to each call.  [Context_Err] is asked only
    after [ctx.Done()] was received, where the context package returns a
    non-nil error. *)
Definition resp (c : call) : Type :=
  match c with
  | sandboxStore_Get _ => (Sandbox.t + error)%type
  | containerStore_List => list Container.t
  | stopContainer _ _ _ => option error
  | unmountSandboxFiles _ _ => option error
  | Status_Get _ => Status.t
  | Container_Task _ _ => (containerd.Task + error)%type
  | Task_Wait _ _ => (Chan + error)%type
  | Task_Pid _ => Z
  | Task_Kill _ _ _ => option error
  | startExitMonitor _ _ _ _ => Chan
  | NamespacedContext => Context
  | context_Background => Context
  | context_WithCancel _ => (Context * CancelFunc)%type
  | cancel _ => unit
  | chan_recv _ => unit
  | time_NewTimer _ => Timer
  | Timer_Stop _ => bool
  | select_wait _ _ _ => select_case
  | Context_Err _ => error
  | time_Now => Time
  | handleSandboxExit _ _ _ => option error
  | NetNS_Closed _ => (bool + error)%type
  | NetNS_Remove _ => option error
  | netPlugin_Remove _ _ _ _ _ => option error
  | logrus_Infof _ _ => unit
  end.

(** ** Programs *)

Inductive prog (A : Type) : Type :=
| Ret (a : A)
| Do (c : call) (k : resp c -> prog A).
Arguments Ret {A} a.
Arguments Do {A} c k.

Fixpoint bind {A B} (p : prog A) (f : A -> prog B) : prog B :=
  match p with
  | Ret a => f a
  | Do c k => Do c (fun x => bind (k x) f)
  end.

Definition perform (c : call) : prog (resp c) := Do c Ret.

Declare Scope prog_scope.
Delimit Scope prog_scope with prog.
Bind Scope prog_scope with prog.
Notation "x <- p ;; q" := (bind p (fun x => q))
  (at level 61, p at next level, right associativity) : prog_scope.
Notation "' pat <- p ;; q" := (bind p (fun x => match x with pat => q end))
  (at level 61, pat pattern, p at next level, right associativity) : prog_scope.
Notation "p ;; q" := (bind p (fun _ => q))
  (at level 61, right associativity) : prog_scope.
Local Open Scope prog_scope.

(** [defer d] around [body]: [d] runs after the value that [body] returns
    has been computed, on every return path of [body]. *)
Definition defer {A} (d : prog unit) (body : prog A) : prog A :=
  a <- body ;; d ;; Ret a.

(** ** The source *)

Section Server.
Context `{Package}.

(** cleanupUnknownSandbox cleanup stopped sandbox in unknown state. *)
Definition cleanupUnknownSandbox (ctx : Context) (id : string)
    (sandbox : Sandbox.t) : prog (option error) :=
  now <- perform time_Now ;;
  perform (handleSandboxExit ctx
    {| eventtypes.ContainerID := id;
       eventtypes.ID := id;
       eventtypes.Pid := 0;
       eventtypes.ExitStatus := unknownExitCode;
       eventtypes.ExitedAt := now |} sandbox).

(** teardownPod removes the network from the pod. *)
Definition teardownPod (c : criService) (id path : string)
    (config : option runtime.PodSandboxConfig) : prog (option error) :=
  match netPlugin c with
  | None => Ret (Some (New "cni config not initialized"))
  | Some plugin =>
      let labels := getPodCNILabels id config in
      perform (netPlugin_Remove plugin id path labels
                 (toCNIPortMappings (runtime.GetPortMappings config)))
  end.

(** waitSandboxStop waits for sandbox to be stopped until timeout
    exceeds or context is cancelled. *)
Definition waitSandboxStop (c : criService) (ctx : Context)
    (sandbox : Sandbox.t) (timeout : Duration) : prog (option error) :=
  timeoutTimer <- perform (time_NewTimer timeout) ;;
  defer (perform (Timer_Stop timeoutTimer) ;; Ret tt)
    (fired <- perform (select_wait ctx timeoutTimer (Sandbox.Stopped sandbox)) ;;
     match fired with
     | case_ctx_Done =>
         err <- perform (Context_Err ctx) ;;
         Ret (Some (Wrapf err "wait sandbox container %q is cancelled"
                      [ArgString (Sandbox.ID sandbox)]))
     | case_timer =>
         Ret (Some (Errorf "wait sandbox container %q stop timeout"
                      [ArgString (Sandbox.ID sandbox)]))
     | case_Stopped => Ret None
     end).

(** stopSandboxContainer kills the sandbox container. *)
Definition stopSandboxContainer (c : criService) (ctx : Context)
    (sandbox : Sandbox.t) : prog (option error) :=
  let id := Sandbox.ID sandbox in
  let container := Sandbox.Container sandbox in
  status <- perform (Status_Get (Sandbox.Status sandbox)) ;;
  let state := Status.State status in
  (* Kill the sandbox container, then wait for it to stop. *)
  let kill (task : containerd.Task) : prog (option error) :=
    err <- perform (Task_Kill ctx task syscall.SIGKILL) ;;
    match err with
    | Some err =>
        if negb (IsNotFound err)
        then Ret (Some (Wrap err "failed to kill sandbox container"))
        else waitSandboxStop c ctx sandbox killContainerTimeout
    | None => waitSandboxStop c ctx sandbox killContainerTimeout
    end in
  got <- perform (Container_Task ctx container) ;;
  match got with
  | inr err =>
      if negb (IsNotFound err)
      then Ret (Some (Wrap err "failed to get sandbox container"))
      else if State_eqb state StateUnknown
      then cleanupUnknownSandbox ctx id sandbox
      else Ret None
  | inl task =>
      if State_eqb state StateUnknown then
        nsCtx <- perform NamespacedContext ;;
        '(waitCtx, waitCancel) <- perform (context_WithCancel nsCtx) ;;
        defer (perform (cancel waitCancel))
          (waited <- perform (Task_Wait waitCtx task) ;;
           match waited with
           | inr err =>
               if negb (IsNotFound err)
               then Ret (Some (Wrap err "failed to wait for task"))
               else cleanupUnknownSandbox ctx id sandbox
           | inl exitCh =>
               bgCtx <- perform context_Background ;;
               '(exitCtx, exitCancel) <- perform (context_WithCancel bgCtx) ;;
               pid <- perform (Task_Pid task) ;;
               stopCh <- perform (startExitMonitor exitCtx id pid exitCh) ;;
               defer (perform (cancel exitCancel) ;; perform (chan_recv stopCh))
                 (kill task)
           end)
      else kill task
  end.

(** The loop of [StopPodSandbox] over [c.containerStore.List()]. *)
Fixpoint stopContainers (ctx : Context) (id : string)
    (containers : list Container.t) : prog (option error) :=
  match containers with
  | [] => Ret None
  | container :: rest =>
      if negb (String.eqb (Container.SandboxID container) id)
      then stopContainers ctx id rest
      else
        err <- perform (stopContainer ctx container 0%Z) ;;
        match err with
        | Some err =>
            Ret (Some (Wrapf err "failed to stop container %q"
                         [ArgString (Container.ID container)]))
        | None => stopContainers ctx id rest
        end
  end.

(** StopPodSandbox stops the sandbox. If there are any running
    containers in the sandbox, they should be forcibly terminated. *)
Definition StopPodSandbox (c : criService) (ctx : Context)
    (r : option runtime.StopPodSandboxRequest)
    : prog (runtime.StopPodSandboxResponse + error) :=
  found <- perform (sandboxStore_Get (runtime.GetPodSandboxId r)) ;;
  match found with
  | inr err =>
      Ret (inr (Wrapf err "an error occurred when try to find sandbox %q"
                  [ArgString (runtime.GetPodSandboxId r)]))
  | inl sandbox =>
      (* Use the full sandbox id. *)
      let id := Sandbox.ID sandbox in
      let finish : prog (runtime.StopPodSandboxResponse + error) :=
        perform (logrus_Infof "TearDown network for sandbox %q successfully"
                   [ArgString id]) ;;
        Ret (inl runtime.StopPodSandboxResponse_empty) in
      (* Teardown network for sandbox. *)
      let network : prog (runtime.StopPodSandboxResponse + error) :=
        match Sandbox.NetNS sandbox with
        | Some netns =>
            let netNSPath := Sandbox.NetNSPath sandbox in
            closed <- perform (NetNS_Closed netns) ;;
            match closed with
            | inr err =>
                Ret (inr (Wrap err "failed to check network namespace closed"))
            | inl closed =>
                let netNSPath := if closed : bool then "" else netNSPath in
                err <- teardownPod c id netNSPath (Sandbox.Config sandbox) ;;
                match err with
                | Some err =>
                    Ret (inr (Wrapf err "failed to destroy network for sandbox %q"
                                [ArgString id]))
                | None =>
                    err <- perform (NetNS_Remove netns) ;;
                    match err with
                    | Some err =>
                        Ret (inr (Wrapf err
                                    "failed to remove network namespace for sandbox %q"
                                    [ArgString id]))
                    | None => finish
                    end
                end
            end
        | None => finish
        end in
      containers <- perform containerStore_List ;;
      err <- stopContainers ctx id containers ;;
      match err with
      | Some err => Ret (inr err)
      | None =>
          err <- perform (unmountSandboxFiles id (Sandbox.Config sandbox)) ;;
          match err with
          | Some err => Ret (inr (Wrap err "failed to unmount sandbox files"))
          | None =>
              (* Only stop sandbox container when it's running or unknown. *)
              status <- perform (Status_Get (Sandbox.Status sandbox)) ;;
              let state := Status.State status in
              if State_eqb state StateReady || State_eqb state StateUnknown
              then
                err <- stopSandboxContainer c ctx sandbox ;;
                match err with
                | Some err =>
                    Ret (inr (Wrapf err
                                "failed to stop sandbox container %q in %q state"
                                [ArgString id; ArgState state]))
                | None => network
                end
              else network
          end
      end
  end.

End Server.

Arguments stopSandboxContainer : simpl never.

(** ** Running a program

    A handler answers every call from a state of the environment.  [run]
    feeds the answers to the program and records each call together with
    its answer. *)

Definition event : Type := {c : call & resp c}.
Definition ev (c : call) (x : resp c) : event := existT resp c x.
Definition called (e : event) : call := projT1 e.

Record outcome (W A : Type) : Type := Outcome {
  ret : A;
  final : W;
  trace : list event }.
Arguments Outcome {W A} ret final trace.
Arguments ret {W A} o.
Arguments final {W A} o.
Arguments trace {W A} o.

Definition handler (W : Type) : Type := forall c : call, W -> resp c * W.

Fixpoint run {W A} (h : handler W) (p : prog A) (w : W) : outcome W A :=
  match p with
  | Ret a => Outcome a w []
  | Do c k =>
      let (x, w1) := h c w in
      match run h (k x) w1 with
      | Outcome a w2 t => Outcome a w2 (ev c x :: t)
      end
  end.

(** [o] with the events [t] in front of its trace. *)
Definition after {W A} (t : list event) (o : outcome W A) : outcome W A :=
  Outcome (ret o) (final o) (t ++ trace o).

(** [every_run p Q]: [Q] holds of the trace and the result of [p]
    whatever the collaborators answer. *)
Fixpoint every_run {A} (p : prog A) (Q : list event -> A -> Prop) : Prop :=
  match p with
  | Ret a => Q [] a
  | Do c k => forall x : resp c, every_run (k x) (fun t a => Q (ev c x :: t) a)
  end.

(** ** An instrumented environment

    A small concrete environment to run the programs in: the two stores, a
    status per sandbox, the tasks that still exist, the namespaces that
    report closed, and a table of injected faults.  Killing a task or
    handling an exit event marks the sandbox [NotReady] and closes its
    stopped channel, as the event monitor does; removing a namespace makes
    it report closed afterwards.  Nothing in it changes what the sandbox
    store returns for an id. *)

Module Fake.

Record world := World {
  sandboxes : list Sandbox.t;
  containers : list Container.t;
  states : list (StatusStorage * State);
  tasks : list containerd.Container;
  closedNS : list NetNS;
  stopped : list Chan;
  cancelled : bool;
  faults : call -> option error;
  clock : Time;
  fresh : nat }.

Definition stateOf (s : StatusStorage) (w : world) : State :=
  match find (fun p => Nat.eqb (fst p) s) (states w) with
  | Some p => snd p
  | None => StateUnknown
  end.

(** The effect of the exit handler on the sandbox [sb]. *)
Definition exited (sb : Sandbox.t) (w : world) : world :=
  World (sandboxes w) (containers w)
    ((Sandbox.Status sb, StateNotReady) :: states w)
    (filter (fun t => negb (Nat.eqb t (Sandbox.Container sb))) (tasks w))
    (closedNS w) (Sandbox.Stopped sb :: stopped w) (cancelled w)
    (faults w) (clock w) (fresh w).

Definition taskExited (task : containerd.Task) (w : world) : world :=
  match find (fun sb => Nat.eqb (Sandbox.Container sb) task) (sandboxes w) with
  | Some sb => exited sb w
  | None => w
  end.

Definition removed (ns : NetNS) (w : world) : world :=
  World (sandboxes w) (containers w) (states w) (tasks w)
    (ns :: closedNS w) (stopped w) (cancelled w) (faults w) (clock w) (fresh w).

Definition tick (w : world) : world :=
  World (sandboxes w) (containers w) (states w) (tasks w)
    (closedNS w) (stopped w) (cancelled w) (faults w) (clock w + 1)%Z (fresh w).

Definition alloc (w : world) : world :=
  World (sandboxes w) (containers w) (states w) (tasks w)
    (closedNS w) (stopped w) (cancelled w) (faults w) (clock w) (S (fresh w)).

Definition mem (n : nat) (l : list nat) : bool := existsb (Nat.eqb n) l.

Definition orFault {A} (w : world) (c : call) (ok : A) : A + error :=
  match faults w c with
  | Some err => inr err
  | None => inl ok
  end.

(** Modelled from the spec: the collaborators that the file calls and
    does not define - the registries ([get], [listAll]), the forced stop
    of a container, the task ([query], [kill], [waitExit], [pid]), the
    exit monitor and the exit handling ("performs the NotReady
    transition and fires the stopped signal"), the network plugin, and
    the namespace resource ("a closed/open boolean and a filesystem
    path").  A lookup answers the record stored under the id; no call
    that the file makes changes that record. *)
Definition handle : handler world := fun c w =>
  match c return resp c * world with
  | sandboxStore_Get id =>
      match faults w c with
      | Some err => (inr err, w)
      | None =>
          match find (fun sb => String.eqb (Sandbox.ID sb) id) (sandboxes w) with
          | Some sb => (inl sb, w)
          | None => (inr ErrNotFound, w)
          end
      end
  | containerStore_List => (containers w, w)
  | stopContainer _ _ _ => (faults w c, w)
  | unmountSandboxFiles _ _ => (faults w c, w)
  | Status_Get s => (Status.Build (stateOf s w), w)
  | Container_Task _ container =>
      match faults w c with
      | Some err => (inr err, w)
      | None =>
          if mem container (tasks w) then (inl container, w)
          else (inr ErrNotFound, w)
      end
  | Task_Wait _ task =>
      match faults w c with
      | Some err => (inr err, w)
      | None =>
          if mem task (tasks w) then (inl (fresh w), alloc w)
          else (inr ErrNotFound, w)
      end
  | Task_Pid task => (Z.of_nat task + 1000, w)%Z
  | Task_Kill _ task _ =>
      match faults w c with
      | Some err => (Some err, w)
      | None =>
          if mem task (tasks w) then (None, taskExited task w)
          else (Some ErrNotFound, w)
      end
  | startExitMonitor _ _ _ _ => (fresh w, alloc w)
  | NamespacedContext => (fresh w, alloc w)
  | context_Background => (fresh w, alloc w)
  | context_WithCancel _ => ((fresh w, fresh w), alloc w)
  | cancel _ => (tt, w)
  | chan_recv _ => (tt, w)
  | time_NewTimer _ => (fresh w, alloc w)
  | Timer_Stop _ => (true, w)
  | select_wait _ _ ch =>
      if cancelled w then (case_ctx_Done, w)
      else if mem ch (stopped w) then (case_Stopped, w)
      else (case_timer, w)
  | Context_Err _ => (ErrCanceled, w)
  | time_Now => (clock w, tick w)
  | handleSandboxExit _ _ sb => (faults w c, exited sb w)
  | NetNS_Closed ns =>
      match faults w c with
      | Some err => (inr err, w)
      | None => (inl (mem ns (closedNS w)), w)
      end
  | NetNS_Remove ns =>
      match faults w c with
      | Some err => (Some err, w)
      | None => (None, removed ns w)
      end
  | netPlugin_Remove _ _ _ _ _ => (faults w c, w)
  | logrus_Infof _ _ => (tt, w)
  end.

Definition noFaults : call -> option error := fun _ => None.

Definition package : Package := {|
  unknownExitCode := 255%Z;
  killContainerTimeout := 120000000000%Z;
  getPodCNILabels := fun id config =>
    [("K8S_POD_INFRA_CONTAINER_ID", id)];
  toCNIPortMappings := map (fun m =>
    {| cni.HostPort := runtime.HostPort m;
       cni.ContainerPort := runtime.ContainerPort m;
       cni.Protocol := "tcp";
       cni.HostIP := runtime.HostIp m |}) |}.

Definition service : criService := {| netPlugin := Some 7 |}.
Definition unconfigured : criService := {| netPlugin := None |}.

(** Sandbox "sb1": its own network namespace 5 mounted at a path. *)
Definition sb1 : Sandbox.t :=
  {| Sandbox.ID := "sb1";
     Sandbox.Config := Some {| runtime.Name := "pod"; runtime.Namespace := "default";
                               runtime.PortMappings := [] |};
     Sandbox.NetNSPath := "/var/run/netns/cni-sb1";
     Sandbox.Status := 1;
     Sandbox.Container := 1;
     Sandbox.NetNS := Some 5;
     Sandbox.Stopped := 1 |}.

Definition c1 : Container.t := {| Container.ID := "c1"; Container.SandboxID := "sb1" |}.
Definition c2 : Container.t := {| Container.ID := "c2"; Container.SandboxID := "other" |}.
Definition c3 : Container.t := {| Container.ID := "c3"; Container.SandboxID := "sb1" |}.

Definition request : option runtime.StopPodSandboxRequest :=
  Some {| runtime.PodSandboxId := "sb1" |}.

(** [sb1] in state [st], with a live task or not. *)
Definition initial (st : State) (live : bool) (f : call -> option error) : world :=
  World [sb1] [c1; c2; c3] [(1, st)] (if live then [1] else []) [] [] false f 100%Z 10.

(** The sandbox is [NotReady] and its task is gone. *)
Definition notReady : world := initial StateNotReady false noFaults.

(** The sandbox is [Unknown] and its task is still there. *)
Definition unknownLive : world := initial StateUnknown true noFaults.

(** The sandbox is [Unknown] and its task is gone. *)
Definition unknownGone : world := initial StateUnknown false noFaults.

(** Asking the namespace whether it is closed fails. *)
Definition closedFails : world :=
  initial StateNotReady false
    (fun c => match c with
              | NetNS_Closed _ => Some (ErrOther "stat netns")
              | _ => None
              end).

(** Stopping the container "c3" fails. *)
Definition stopFails : world :=
  initial StateNotReady false
    (fun c => match c with
              | stopContainer _ container _ =>
                  if String.eqb (Container.ID container) "c3"
                  then Some (ErrOther "kill c3")
                  else None
              | _ => None
              end).

Definition stop (c : criService) (w : world) :=
  run handle (@StopPodSandbox package c 0 request) w.

Definition stopInfra (w : world) :=
  run handle (@stopSandboxContainer package service 0 sb1) w.

(** The sandbox is [Ready] and its task is still there. *)
Definition readyLive : world := initial StateReady true noFaults.

(** Subscribing to the exit of the task finds the task gone. *)
Definition waitFails : world :=
  initial StateUnknown true
    (fun c => match c with
              | Task_Wait _ _ => Some ErrNotFound
              | _ => None
              end).

(** Killing the task fails. *)
Definition killFails : world :=
  initial StateReady true
    (fun c => match c with
              | Task_Kill _ _ _ => Some (ErrOther "kill")
              | _ => None
              end).

(** Unmounting the sandbox files fails. *)
Definition unmountFails : world :=
  initial StateNotReady false
    (fun c => match c with
              | unmountSandboxFiles _ _ => Some (ErrOther "umount")
              | _ => None
              end).

(** The network plugin fails. *)
Definition teardownFails : world :=
  initial StateNotReady false
    (fun c => match c with
              | netPlugin_Remove _ _ _ _ _ => Some (ErrOther "cni del")
              | _ => None
              end).

(** Removing the namespace fails. *)
Definition removeFails : world :=
  initial StateNotReady false
    (fun c => match c with
              | NetNS_Remove _ => Some (ErrOther "unmount netns")
              | _ => None
              end).

(** Sandbox "host": no network namespace of its own. *)
Definition sbHost : Sandbox.t :=
  {| Sandbox.ID := "host";
     Sandbox.Config := None;
     Sandbox.NetNSPath := "";
     Sandbox.Status := 2;
     Sandbox.Container := 2;
     Sandbox.NetNS := None;
     Sandbox.Stopped := 2 |}.

Definition hostNetwork : world :=
  World [sbHost] [] [(2, StateNotReady)] [] [] [] false noFaults 100%Z 10.

Definition requestHost : option runtime.StopPodSandboxRequest :=
  Some {| runtime.PodSandboxId := "host" |}.

Definition requestMissing : option runtime.StopPodSandboxRequest :=
  Some {| runtime.PodSandboxId := "missing" |}.

End Fake.

(** ** Vocabulary of the statements *)

(** [possible p t a]: [t] and [a] are the record and the result of a
    complete run of [p], for some answers of the collaborators. *)
Fixpoint possible {A} (p : prog A) (t : list event) (a : A) : Prop :=
  match p with
  | Ret a' => t = [] /\ a = a'
  | Do c k => exists (x : resp c) t', t = ev c x :: t' /\ possible (k x) t' a
  end.

(** What [f] reads off the events of a trace, in order. *)
Fixpoint observe {A} (f : event -> option A) (t : list event) : list A :=
  match t with
  | [] => []
  | e :: t' =>
      match f e with
      | Some a => a :: observe f t'
      | None => observe f t'
      end
  end.

Definition first_seen {A} (f : event -> option A) (t : list event) : option A :=
  hd_error (observe f t).

(** *** Readings of single events *)

(** The sandbox store answered the lookup. *)
Definition lookup_answer (e : event) : option (Sandbox.t + error) :=
  match e with
  | existT _ c x =>
      match c return resp c -> option (Sandbox.t + error) with
      | sandboxStore_Get _ => fun found => Some found
      | _ => fun _ => None
      end x
  end.

(** The container store answered the enumeration. *)
Definition list_answer (e : event) : option (list Container.t) :=
  match e with
  | existT _ c x =>
      match c return resp c -> option (list Container.t) with
      | containerStore_List => fun containers => Some containers
      | _ => fun _ => None
      end x
  end.

(** A member container was stopped: the container and the grace period. *)
Definition stop_call (e : event) : option (Container.t * Duration) :=
  match called e with
  | stopContainer _ container timeout => Some (container, timeout)
  | _ => None
  end.

(** Stopping a member container failed. *)
Definition stop_failure (e : event) : option (Container.t * error) :=
  match e with
  | existT _ c x =>
      match c return resp c -> option (Container.t * error) with
      | stopContainer _ container _ => fun r =>
          match r with
          | Some err => Some (container, err)
          | None => None
          end
      | _ => fun _ => None
      end x
  end.

(** The state in the answer to [sandbox.Status.Get()]. *)
Definition state_answer (e : event) : option State :=
  match e with
  | existT _ c x =>
      match c return resp c -> option State with
      | Status_Get _ => fun status => Some (Status.State status)
      | _ => fun _ => None
      end x
  end.

(** The task of the sandbox container was queried. *)
Definition task_query (e : event) : option containerd.Container :=
  match called e with
  | Container_Task _ container => Some container
  | _ => None
  end.

(** A task was sent a signal. *)
Definition kill_call (e : event) : option (containerd.Task * Signal) :=
  match called e with
  | Task_Kill _ task sig => Some (task, sig)
  | _ => None
  end.

Definition is_kill (task : containerd.Task) (e : event) : bool :=
  match called e with
  | Task_Kill _ t _ => Nat.eqb t task
  | _ => false
  end.

(** An exit event was handed to [handleSandboxExit]. *)
Definition exit_handed (e : event) : option (eventtypes.TaskExit * Sandbox.t) :=
  match called e with
  | handleSandboxExit _ x sandbox => Some (x, sandbox)
  | _ => None
  end.

(** The namespace answered whether it is closed. *)
Definition closed_answer (e : event) : option (NetNS * (bool + error)) :=
  match e with
  | existT _ c x =>
      match c return resp c -> option (NetNS * (bool + error)) with
      | NetNS_Closed netns => fun r => Some (netns, r)
      | _ => fun _ => None
      end x
  end.

(** The network plugin was asked to remove the network: its arguments. *)
Record teardown := Teardown {
  td_plugin : cni.CNI;
  td_id : string;
  td_path : string;
  td_labels : cni.Labels;
  td_portMappings : list cni.PortMapping }.

Definition teardown_call (e : event) : option teardown :=
  match called e with
  | netPlugin_Remove plugin id path labels portMappings =>
      Some (Teardown plugin id path labels portMappings)
  | _ => None
  end.

(** The network plugin removed the network without error. *)
Definition teardown_ok (e : event) : bool :=
  match e with
  | existT _ c x =>
      match c return resp c -> bool with
      | netPlugin_Remove _ _ _ _ _ => fun r =>
          match r with
          | None => true
          | Some _ => false
          end
      | _ => fun _ => false
      end x
  end.

(** The namespace was removed. *)
Definition remove_call (e : event) : option NetNS :=
  match called e with
  | NetNS_Remove netns => Some netns
  | _ => None
  end.

Definition is_error {A} (r : A + error) : bool :=
  match r with
  | inl _ => false
  | inr _ => true
  end.

Definition is_some {A} (r : option A) : bool :=
  match r with
  | Some _ => true
  | None => false
  end.

(** The collaborator answered the call with an error. *)
Definition failed (e : event) : bool :=
  match e with
  | existT _ c x =>
      match c return resp c -> bool with
      | sandboxStore_Get _ => is_error
      | stopContainer _ _ _ => is_some
      | unmountSandboxFiles _ _ => is_some
      | Container_Task _ _ => is_error
      | Task_Wait _ _ => is_error
      | Task_Kill _ _ _ => is_some
      | handleSandboxExit _ _ _ => is_some
      | NetNS_Closed _ => is_error
      | NetNS_Remove _ => is_some
      | netPlugin_Remove _ _ _ _ _ => is_some
      | _ => fun _ => false
      end x
  end.

(** *** The member containers *)

(** The containers of the enumeration that belong to the sandbox [id]. *)
Definition members (id : string) (containers : list Container.t) : list Container.t :=
  filter (fun container => String.eqb (Container.SandboxID container) id) containers.

(** *** The bounded wait *)

(** The three results of the bounded wait for the sandbox [id]. *)
Definition wait_cancelled (id : string) (r : option error) : Prop :=
  exists cause,
    r = Some (Wrapf cause "wait sandbox container %q is cancelled" [ArgString id]).

Definition wait_timed_out (id : string) (r : option error) : Prop :=
  r = Some (Errorf "wait sandbox container %q stop timeout" [ArgString id]).

Definition wait_succeeded (r : option error) : Prop := r = None.

(** What the bounded wait does after its [select] fired [fired]: the
    calls [rest] it makes before the timer is released, and its result. *)
Definition wait_outcome (ctx : Context) (id : string) (fired : select_case)
    (rest : list event) (r : option error) : Prop :=
  match fired with
  | case_ctx_Done =>
      exists cause,
        rest = [ev (Context_Err ctx) cause]
        /\ r = Some (Wrapf cause "wait sandbox container %q is cancelled"
                      [ArgString id])
        /\ wait_cancelled id r /\ ~ wait_timed_out id r /\ ~ wait_succeeded r
  | case_timer =>
      rest = []
      /\ wait_timed_out id r /\ ~ wait_cancelled id r /\ ~ wait_succeeded r
  | case_Stopped =>
      rest = []
      /\ wait_succeeded r /\ ~ wait_cancelled id r /\ ~ wait_timed_out id r
  end.

(** *** Footprints *)

(** The calls that [stopSandboxContainer] can make. *)
Definition infra_call (c : call) : bool :=
  match c with
  | Status_Get _ | Container_Task _ _
  | Task_Wait _ _ | Task_Pid _ | Task_Kill _ _ _
  | startExitMonitor _ _ _ _
  | NamespacedContext | context_Background | context_WithCancel _
  | cancel _ | chan_recv _
  | time_NewTimer _ | Timer_Stop _ | select_wait _ _ _ | Context_Err _
  | time_Now | handleSandboxExit _ _ _ => true
  | _ => false
  end.

Definition infra_only (t : list event) : Prop :=
  forallb (fun e => infra_call (called e)) t = true.

(** A member container stopped without error. *)
Definition stopped_ok (ctx : Context) (container : Container.t) : event :=
  ev (stopContainer ctx container 0%Z) None.

(** *** The network step *)

(** The calls of the network step of [StopPodSandbox], with their answers. *)
Inductive net :=
| NetClosed (netns : NetNS) (r : bool + error)
| NetTeardown (td : teardown) (r : option error)
| NetRemove (netns : NetNS) (r : option error).

Definition net_event (e : event) : option net :=
  match e with
  | existT _ c x =>
      match c return resp c -> option net with
      | NetNS_Closed netns => fun r => Some (NetClosed netns r)
      | netPlugin_Remove plugin id path labels portMappings => fun r =>
          Some (NetTeardown (Teardown plugin id path labels portMappings) r)
      | NetNS_Remove netns => fun r => Some (NetRemove netns r)
      | _ => fun _ => None
      end x
  end.

(** The shapes of the network step of one call: nothing; the closed
    query alone, when it failed or no plugin is configured; the closed
    query and a teardown that failed; the closed query, a teardown that
    succeeded and the removal of the same namespace. *)
Definition network_shape (c : criService) (l : list net) : Prop :=
  match l with
  | [] => True
  | [NetClosed _ r] => is_error r = true \/ netPlugin c = None
  | [NetClosed _ (inl _); NetTeardown _ (Some _)] => True
  | [NetClosed netns (inl _); NetTeardown _ None; NetRemove netns' _] => netns' = netns
  | _ => False
  end.

(** The statement that, after a call that tore the network down and
    succeeded, the next call for the same request tears nothing down; at
    the environment [h], [w]. *)
Definition no_second_teardown `{Package} {W} (h : handler W) (w : W)
    (c : criService) (ctx : Context) (r : option runtime.StopPodSandboxRequest) : Prop :=
  let o := run h (StopPodSandbox c ctx r) w in
  let o' := run h (StopPodSandbox c ctx r) (final o) in
  existsb teardown_ok (trace o) = true ->
  ret o = inl runtime.StopPodSandboxResponse_empty ->
  observe teardown_call (trace o') = [].

(** *** The infra-container step *)


(** No collaborator answered with an error, and the network plugin is
    configured if the network step asked the namespace. *)
Definition failure (e : event) : option event :=
  if failed e then Some e else None.


(** [e] is the last event of [t]. *)
Definition ends_with (e : event) (t : list event) : Prop :=
  exists pre, t = pre ++ [e].

(** The test of [StopPodSandbox] before it stops the sandbox container:
    only when it is running or unknown. *)
Definition running_or_unknown (state : State) : bool :=
  State_eqb state StateReady || State_eqb state StateUnknown.

(** *** Further readings *)

(** The sandbox files were unmounted: the arguments. *)
Definition unmount_call (e : event)
    : option (string * option runtime.PodSandboxConfig) :=
  match called e with
  | unmountSandboxFiles id config => Some (id, config)
  | _ => None
  end.

(** Unmounting the sandbox files failed. *)
Definition unmount_failure (e : event) : option error :=
  match e with
  | existT _ c x =>
      match c return resp c -> option error with
      | unmountSandboxFiles _ _ => fun r => r
      | _ => fun _ => None
      end x
  end.

(** A message was logged. *)
Definition log_call (e : event) : option (string * list fmtarg) :=
  match called e with
  | logrus_Infof format args => Some (format, args)
  | _ => None
  end.

(** The task query answered. *)
Definition task_answer (e : event)
    : option (Context * containerd.Container * (containerd.Task + error)) :=
  match e with
  | existT _ c x =>
      match c return resp c -> option (Context * containerd.Container
                                        * (containerd.Task + error)) with
      | Container_Task ctx container => fun r => Some (ctx, container, r)
      | _ => fun _ => None
      end x
  end.

(** [task.Wait] answered. *)
Definition wait_answer (e : event)
    : option (Context * containerd.Task * (Chan + error)) :=
  match e with
  | existT _ c x =>
      match c return resp c -> option (Context * containerd.Task * (Chan + error)) with
      | Task_Wait ctx task => fun r => Some (ctx, task, r)
      | _ => fun _ => None
      end x
  end.

(** The exit monitor was started: the context, the id, the pid, the exit
    channel, and the channel it answered. *)
Definition monitor_call (e : event)
    : option (Context * string * Z * Chan * Chan) :=
  match e with
  | existT _ c x =>
      match c return resp c -> option (Context * string * Z * Chan * Chan) with
      | startExitMonitor ctx id pid exitCh => fun stopCh =>
          Some (ctx, id, pid, exitCh, stopCh)
      | _ => fun _ => None
      end x
  end.

(** [task.Kill] answered: the context, the task, the signal, the answer. *)
Definition kill_answer (e : event)
    : option (Context * containerd.Task * Signal * option error) :=
  match e with
  | existT _ c x =>
      match c return resp c -> option (Context * containerd.Task * Signal
                                        * option error) with
      | Task_Kill ctx task sig => fun r => Some (ctx, task, sig, r)
      | _ => fun _ => None
      end x
  end.

(** [context.WithCancel] answered: the parent, and the cancel function. *)
Definition withcancel_answer (e : event) : option (Context * CancelFunc) :=
  match e with
  | existT _ c x =>
      match c return resp c -> option (Context * CancelFunc) with
      | context_WithCancel parent => fun r => Some (parent, snd r)
      | _ => fun _ => None
      end x
  end.

(** A cancel function was called. *)
Definition cancel_call (e : event) : option CancelFunc :=
  match called e with
  | cancel f => Some f
  | _ => None
  end.

(** A timer was started: its duration. *)
Definition timer_call (e : event) : option Duration :=
  match called e with
  | time_NewTimer d => Some d
  | _ => None
  end.

(** The [select] of the bounded wait: what it waited on, and the case
    that fired. *)
Definition select_answer (e : event) : option (Context * Chan * select_case) :=
  match e with
  | existT _ c x =>
      match c return resp c -> option (Context * Chan * select_case) with
      | select_wait ctx _ stopped => fun fired => Some (ctx, stopped, fired)
      | _ => fun _ => None
      end x
  end.

(** [handleSandboxExit] answered. *)
Definition exit_answer (e : event) : option (option error) :=
  match e with
  | existT _ c x =>
      match c return resp c -> option (option error) with
      | handleSandboxExit _ _ _ => fun r => Some r
      | _ => fun _ => None
      end x
  end.

(** The calls by which [stopSandboxContainer] subscribes to the exit of
    the task and releases the subscription. *)
Definition subscription_call (e : event) : option call :=
  match called e with
  | NamespacedContext | context_Background | context_WithCancel _
  | Task_Wait _ _ | Task_Pid _ | startExitMonitor _ _ _ _
  | cancel _ | chan_recv _ => Some (called e)
  | _ => None
  end.

(** The step of [StopPodSandbox] that a call belongs to: 0 the lookup,
    1 the enumeration, 2 the stop of a member container, 3 the unmount,
    4 the stop of the sandbox container, 5 the network, 6 the log. *)
Definition step_of (c : call) : nat :=
  match c with
  | sandboxStore_Get _ => 0
  | containerStore_List => 1
  | stopContainer _ _ _ => 2
  | unmountSandboxFiles _ _ => 3
  | NetNS_Closed _ | netPlugin_Remove _ _ _ _ _ | NetNS_Remove _ => 5
  | logrus_Infof _ _ => 6
  | _ => 4
  end.

Definition step (e : event) : option nat := Some (step_of (called e)).

(** The result of the bounded wait for the sandbox [id] when its
    [select] fired [fired]. *)
Definition wait_result (id : string) (fired : select_case) (r : option error) : Prop :=
  match fired with
  | case_ctx_Done => wait_cancelled id r
  | case_timer => wait_timed_out id r
  | case_Stopped => wait_succeeded r
  end.

(** [t] ends with the calls [l]. *)
Definition ends_in (l t : list event) : Prop :=
  exists pre, t = pre ++ l.

(** [l] is in increasing order (repetitions allowed) and starts at [n]
    or above. *)
Definition ordered_from (n : nat) (l : list nat) : Prop :=
  StronglySorted le l /\ Forall (le n) l.

(** * Properties *)

Lemma State_eqb_eq (a b : State) : State_eqb a b = true <-> a = b.
Proof. destruct a, b; simpl; split; congruence. Qed.

(** ** Programs and their runs *)

Section RunFacts.
Context {W : Type} (h : handler W).

Lemma run_bind {A B} (p : prog A) (f : A -> prog B) (w : W) :
  run h (bind p f) w =
  after (trace (run h p w)) (run h (f (ret (run h p w))) (final (run h p w))).
Proof.
  revert w; induction p as [a | c k IH]; intros w; simpl.
  - unfold after; simpl. destruct (run h (f a) w); reflexivity.
  - destruct (h c w) as [x w1]. rewrite IH.
    destruct (run h (k x) w1) as [a w2 t]; simpl.
    unfold after; simpl. reflexivity.
Qed.

Lemma every_run_sound {A} (p : prog A) (Q : list event -> A -> Prop) (w : W) :
  every_run p Q -> Q (trace (run h p w)) (ret (run h p w)).
Proof.
  revert Q w; induction p as [a | c k IH]; intros Q w HQ; simpl in *.
  - exact HQ.
  - destruct (h c w) as [x w1]. specialize (IH x _ w1 (HQ x)).
    destruct (run h (k x) w1) as [a w2 t]; exact IH.
Qed.
End RunFacts.

Lemma every_run_weaken {A} (p : prog A) (Q Q' : list event -> A -> Prop) :
  (forall t a, Q t a -> Q' t a) -> every_run p Q -> every_run p Q'.
Proof.
  revert Q Q'; induction p as [a | c k IH]; intros Q Q' HQ Hp; simpl in *.
  - auto.
  - intros x. eapply IH; [ | apply Hp ]. intros t a; apply HQ.
Qed.

Lemma every_run_bind {A B} (p : prog A) (f : A -> prog B)
    (Q : list event -> B -> Prop) :
  every_run p (fun t a => every_run (f a) (fun t' b => Q (t ++ t') b)) ->
  every_run (bind p f) Q.
Proof.
  revert Q; induction p as [a | c k IH]; intros Q Hp; simpl in *.
  - exact Hp.
  - intros x. apply IH. exact (Hp x).
Qed.

(** Symbolic execution of a program under [every_run]: name every
    answer, and split on the answers the program branches on. *)
Ltac exec :=
  repeat (simpl;
    match goal with
    | |- forall _ : _, _ => intro
    | |- every_run ?p _ =>
        match p with
        | context[match ?x with _ => _ end] => is_var x; destruct x
        | context[if ?b then _ else _] => destruct b eqn:?
        end
    end);
  simpl.

(** Enumerate the positions at which [t = pre ++ e :: post] can hold for
    a trace [t] of known length. *)
Ltac positions H :=
  match type of H with
  | [] = ?pre ++ _ :: _ => destruct pre; simpl in H; discriminate H
  | _ :: _ = ?pre ++ _ :: _ =>
      let x := fresh "x" in
      let Hx := fresh "Hx" in
      (destruct pre as [ | x pre]; simpl in H; injection H as Hx H);
      [ | positions H ]
  end.

Section RunStep.
Context {W : Type} (h : handler W).

Lemma run_Do {A} (c : call) (k : resp c -> prog A) (w : W) :
  run h (Do c k) w =
  after [ev c (fst (h c w))] (run h (k (fst (h c w))) (snd (h c w))).
Proof.
  simpl. destruct (h c w) as [x w1]; simpl.
  destruct (run h (k x) w1); reflexivity.
Qed.
End RunStep.

(** ** Traces *)

Lemma every_run_possible {A} (p : prog A) : every_run p (possible p).
Proof.
  induction p as [a | c k IH]; simpl.
  - split; reflexivity.
  - intros x. eapply every_run_weaken; [ | apply IH ].
    intros t a Hp. exists x, t. split; [ reflexivity | exact Hp ].
Qed.

Lemma possible_every {A} (p : prog A) (Q : list event -> A -> Prop) t a :
  every_run p Q -> possible p t a -> Q t a.
Proof.
  revert Q t; induction p as [a' | c k IH]; intros Q t HQ Hp; simpl in *.
  - destruct Hp as [-> ->]. exact HQ.
  - destruct Hp as (x & t' & -> & Hp). exact (IH x _ t' (HQ x) Hp).
Qed.

Lemma run_possible {W A} (h : handler W) (p : prog A) (w : W) :
  possible p (trace (run h p w)) (ret (run h p w)).
Proof. apply every_run_sound, every_run_possible. Qed.

Lemma observe_app {A} (f : event -> option A) (t1 t2 : list event) :
  observe f (t1 ++ t2) = observe f t1 ++ observe f t2.
Proof.
  induction t1 as [ | e t1 IH]; simpl; [ reflexivity | ].
  destruct (f e); simpl; rewrite IH; reflexivity.
Qed.

Lemma observe_none {A} (f : event -> option A) (t : list event) :
  (forall e, In e t -> f e = None) -> observe f t = [].
Proof.
  induction t as [ | e t IH]; simpl; intros Hf; [ reflexivity | ].
  rewrite (Hf e (or_introl eq_refl)). apply IH. intros e' He'. apply Hf. right; exact He'.
Qed.

Lemma observe_infra_only {A} (f : event -> option A) (t : list event) :
  (forall e, infra_call (called e) = true -> f e = None) ->
  infra_only t -> observe f t = [].
Proof.
  intros Hf Ht. apply observe_none. intros e He.
  apply Hf. unfold infra_only in Ht. rewrite forallb_forall in Ht. exact (Ht e He).
Qed.

Lemma observe_stopped_ok {A} (f : event -> option A) ctx (l : list Container.t) :
  (forall cn, f (stopped_ok ctx cn) = None) ->
  observe f (map (stopped_ok ctx) l) = [].
Proof.
  intros Hf. apply observe_none. intros e He.
  apply in_map_iff in He. destruct He as (cn & <- & _). apply Hf.
Qed.

Section Loop.
Context `{Package}.

Lemma stopContainers_runs (ctx : Context) (id : string) (containers : list Container.t) :
  every_run (stopContainers ctx id containers) (fun t r =>
    match r with
    | None => t = map (stopped_ok ctx) (members id containers)
    | Some e =>
        exists before cn err rest,
          members id containers = before ++ cn :: rest
          /\ t = map (stopped_ok ctx) before ++ [ev (stopContainer ctx cn 0%Z) (Some err)]
          /\ e = Wrapf err "failed to stop container %q" [ArgString (Container.ID cn)]
    end).
Proof.
  induction containers as [ | cn containers IH]; simpl.
  - reflexivity.
  - unfold members in *; simpl.
    destruct (String.eqb (Container.SandboxID cn) id); simpl.
    + intros [err | ]; simpl.
      * exists [], cn, err, (filter (fun c => String.eqb (Container.SandboxID c) id) containers).
        repeat split; reflexivity.
      * eapply every_run_weaken; [ | apply IH ].
        intros t [e | ]; simpl.
        -- intros (before & cn' & err & rest & Hm & -> & ->).
           exists (cn :: before), cn', err, rest. rewrite Hm. repeat split; reflexivity.
        -- intros ->. reflexivity.
    + exact IH.
Qed.

Lemma stopSandboxContainer_footprint c ctx sandbox :
  every_run (stopSandboxContainer c ctx sandbox) (fun t _ => infra_only t).
Proof.
  unfold stopSandboxContainer, waitSandboxStop, cleanupUnknownSandbox, defer, infra_only.
  exec. all: reflexivity.
Qed.
End Loop.

(** ** The unknown-state reconciler *)

Section Reconciler.
Context `{Package} {W : Type} (h : handler W).

(** C5. [cleanupUnknownSandbox ctx id sandbox] reads the clock once and
    makes exactly one call of [handleSandboxExit], the handler of live
    exit events, on the event with container id [id], id [id], pid 0,
    exit status [unknownExitCode] and the time just read; what that call
    answers is what it returns.  Wherever [stopSandboxContainer] hands
    over an exit event, it is this one with [id] the sandbox's ID. *)
Theorem cleanupUnknownSandbox_synthetic_exit
    (w : W) (c : criService) (ctx : Context) (id : string) (sandbox : Sandbox.t) :
  (exists now result,
     trace (run h (cleanupUnknownSandbox ctx id sandbox) w) =
       [ev time_Now now;
        ev (handleSandboxExit ctx
              {| eventtypes.ContainerID := id;
                 eventtypes.ID := id;
                 eventtypes.Pid := 0;
                 eventtypes.ExitStatus := unknownExitCode;
                 eventtypes.ExitedAt := now |} sandbox) result]
     /\ ret (run h (cleanupUnknownSandbox ctx id sandbox) w) = result)
  /\ (forall x sb,
        In (x, sb) (observe exit_handed (trace (run h (stopSandboxContainer c ctx sandbox) w))) ->
        sb = sandbox
        /\ eventtypes.ContainerID x = Sandbox.ID sandbox
        /\ eventtypes.ID x = Sandbox.ID sandbox
        /\ eventtypes.Pid x = 0%Z
        /\ eventtypes.ExitStatus x = unknownExitCode).
Proof.
  split.
  - apply (every_run_sound h (cleanupUnknownSandbox ctx id sandbox)
             (fun t r => exists now result, t = [ev time_Now now; _] /\ r = result)).
    unfold cleanupUnknownSandbox. exec.
    eexists _, _. split; reflexivity.
  - intros x sb.
    apply (every_run_sound h (stopSandboxContainer c ctx sandbox)
             (fun t _ => In (x, sb) (observe exit_handed t) -> _)).
    unfold stopSandboxContainer, waitSandboxStop, cleanupUnknownSandbox, defer.
    exec.
    all: try contradiction.
    all: match goal with
         | Hin : _ \/ False |- _ =>
             destruct Hin as [Hin | []]; injection Hin as <- <-; auto
         end.
Qed.

End Reconciler.

(** ** The bounded wait *)

Section BoundedWait.
Context `{Package} {W : Type} (h : handler W).

(** C2. [waitSandboxStop] makes one [select] over exactly the caller's
    [ctx.Done()], the channel of a timer started with the timeout, and
    the sandbox's stopped channel.  The case that fires decides the
    result: cancellation gives [ctx.Err()] wrapped in a message with the
    sandbox ID, the timer gives a timeout error with the sandbox ID, the
    stopped channel gives nil; in each case the other two results are
    excluded.  The timer is stopped on every path. *)
Theorem waitSandboxStop_one_of_three
    (w : W) (c : criService) (ctx : Context) (sandbox : Sandbox.t)
    (timeout : Duration) :
  let o := run h (waitSandboxStop c ctx sandbox timeout) w in
  exists timer fired rest released,
    trace o = ev (time_NewTimer timeout) timer
              :: ev (select_wait ctx timer (Sandbox.Stopped sandbox)) fired
              :: rest ++ [ev (Timer_Stop timer) released]
    /\ wait_outcome ctx (Sandbox.ID sandbox) fired rest (ret o).
Proof.
  cbv zeta.
  apply (every_run_sound h (waitSandboxStop c ctx sandbox timeout)
           (fun t r => exists timer fired rest released,
              t = ev (time_NewTimer timeout) timer
                  :: ev (select_wait ctx timer (Sandbox.Stopped sandbox)) fired
                  :: rest ++ [ev (Timer_Stop timer) released]
              /\ wait_outcome ctx (Sandbox.ID sandbox) fired rest r)).
  unfold waitSandboxStop, defer.
  exec.
  - eexists _, case_ctx_Done, [_], _. split; [ reflexivity | ].
    eexists. repeat split; try reflexivity; try discriminate.
    eexists; reflexivity.
  - eexists _, case_timer, [], _. split; [ reflexivity | ].
    repeat split; try discriminate. intros [cause Hc]; discriminate.
  - eexists _, case_Stopped, [], _. split; [ reflexivity | ].
    repeat split; try discriminate. intros [cause Hc]; discriminate.
Qed.

End BoundedWait.

(** ** The infra-container stop state machine *)

Section InfraContainer.
Context `{Package} {W : Type} (h : handler W).

(** C4. When the task query of [stopSandboxContainer] answers an error:
    if the error is not-found and the state read is [Unknown], the rest
    of the run and the result are those of [cleanupUnknownSandbox] for
    this sandbox; if it is not-found in any other state, nothing more is
    called and the result is nil; any other error is returned, wrapped,
    and nothing more is called. *)
Theorem stopSandboxContainer_task_query_fails
    (w : W) (c : criService) (ctx : Context) (sandbox : Sandbox.t)
    (status : Status.t) (err : error) (w1 w2 : W) :
  h (Status_Get (Sandbox.Status sandbox)) w = (status, w1) ->
  h (Container_Task ctx (Sandbox.Container sandbox)) w1 = (inr err, w2) ->
  let asked := [ev (Status_Get (Sandbox.Status sandbox)) status;
                ev (Container_Task ctx (Sandbox.Container sandbox)) (inr err)] in
  run h (stopSandboxContainer c ctx sandbox) w =
    if IsNotFound err then
      if State_eqb (Status.State status) StateUnknown
      then after asked
             (run h (cleanupUnknownSandbox ctx (Sandbox.ID sandbox) sandbox) w2)
      else Outcome None w2 asked
    else Outcome (Some (Wrap err "failed to get sandbox container")) w2 asked.
Proof.
  intros Hstatus Htask asked.
  unfold stopSandboxContainer. cbn [bind perform].
  rewrite run_Do, Hstatus. cbn [fst snd bind].
  rewrite run_Do, Htask. cbn [fst snd bind].
  destruct (IsNotFound err); cbn [negb].
  - destruct (State_eqb (Status.State status) StateUnknown).
    + destruct (run h (cleanupUnknownSandbox ctx (Sandbox.ID sandbox) sandbox) w2);
        reflexivity.
    + reflexivity.
  - reflexivity.
Qed.

(** C3. In a run of [stopSandboxContainer] that read the state
    [Unknown], a kill of the task comes only after [task.Wait] answered
    an exit channel for that task and, after that, the channel was
    registered with the exit monitor under the sandbox's ID. *)
Theorem stopSandboxContainer_subscribes_before_kill
    (w : W) (c : criService) (ctx : Context) (sandbox : Sandbox.t)
    (task : containerd.Task) (pre : list event) (e : event) (post : list event) :
  trace (run h (stopSandboxContainer c ctx sandbox) w) = pre ++ e :: post ->
  first_seen state_answer pre = Some StateUnknown ->
  is_kill task e = true ->
  exists before waitCtx exitCh between exitCtx pid stopCh after,
    pre = before
          ++ ev (Task_Wait waitCtx task) (inl exitCh)
          :: between
          ++ ev (startExitMonitor exitCtx (Sandbox.ID sandbox) pid exitCh) stopCh
          :: after.
Proof.
  revert pre e post.
  apply (every_run_sound h (stopSandboxContainer c ctx sandbox)
           (fun t _ => forall pre e post, t = pre ++ e :: post -> _ -> _ -> _)).
  unfold stopSandboxContainer, waitSandboxStop, cleanupUnknownSandbox, defer.
  exec.
  all: match goal with Heq : _ = _ ++ _ :: _ |- _ => positions Heq end.
  all: subst.
  all: unfold is_kill, first_seen, called, ev in *; simpl in *; try discriminate.
  all: try match goal with
           | Hk : Nat.eqb _ _ = true |- _ => apply Nat.eqb_eq in Hk; subst
           end.
  all: match goal with
       | Hs : Some _ = Some StateUnknown |- _ => injection Hs as Hs; rewrite Hs in *
       end; try discriminate.
  all: eexists [_; _; _; _], _, _, [_; _; _], _, _, _, []; reflexivity.
Qed.

End InfraContainer.

(** ** The orchestrator *)

Lemma infra_none_lookup e : infra_call (called e) = true -> lookup_answer e = None.
Proof. destruct e as [[] x]; simpl; intros; (reflexivity || discriminate). Qed.
Lemma infra_none_list e : infra_call (called e) = true -> list_answer e = None.
Proof. destruct e as [[] x]; simpl; intros; (reflexivity || discriminate). Qed.
Lemma infra_none_stop e : infra_call (called e) = true -> stop_call e = None.
Proof. destruct e as [[] x]; simpl; intros; (reflexivity || discriminate). Qed.
Lemma infra_none_stop_failure e : infra_call (called e) = true -> stop_failure e = None.
Proof. destruct e as [[] x]; simpl; intros; (reflexivity || discriminate). Qed.
Lemma infra_none_closed e : infra_call (called e) = true -> closed_answer e = None.
Proof. destruct e as [[] x]; simpl; intros; (reflexivity || discriminate). Qed.
Lemma infra_none_teardown e : infra_call (called e) = true -> teardown_call e = None.
Proof. destruct e as [[] x]; simpl; intros; (reflexivity || discriminate). Qed.
Lemma infra_none_remove e : infra_call (called e) = true -> remove_call e = None.
Proof. destruct e as [[] x]; simpl; intros; (reflexivity || discriminate). Qed.
Lemma infra_none_net e : infra_call (called e) = true -> net_event e = None.
Proof. destruct e as [[] x]; simpl; intros; (reflexivity || discriminate). Qed.

Lemma observe_stop_call_ok ctx (l : list Container.t) :
  observe stop_call (map (stopped_ok ctx) l) = map (fun cn => (cn, 0%Z)) l.
Proof. induction l as [ | cn l IH]; simpl; [ reflexivity | rewrite IH; reflexivity ]. Qed.

Lemma ends_with_one e : ends_with e [e].
Proof. exists []. reflexivity. Qed.

Lemma ends_with_cons e x t : ends_with e t -> ends_with e (x :: t).
Proof. intros [pre ->]. exists (x :: pre). reflexivity. Qed.

Lemma ends_with_app e t1 t2 : ends_with e t2 -> ends_with e (t1 ++ t2).
Proof. intros [pre ->]. exists (t1 ++ pre). rewrite app_assoc. reflexivity. Qed.

Ltac ends :=
  rewrite ?app_nil_r;
  repeat first [ apply ends_with_one | apply ends_with_cons | apply ends_with_app ].

(** What the readings see in a segment of calls of [stopSandboxContainer]. *)
Ltac infra_facts Hi :=
  pose proof (observe_infra_only lookup_answer _ infra_none_lookup Hi);
  pose proof (observe_infra_only list_answer _ infra_none_list Hi);
  pose proof (observe_infra_only stop_call _ infra_none_stop Hi);
  pose proof (observe_infra_only stop_failure _ infra_none_stop_failure Hi);
  pose proof (observe_infra_only closed_answer _ infra_none_closed Hi);
  pose proof (observe_infra_only teardown_call _ infra_none_teardown Hi);
  pose proof (observe_infra_only remove_call _ infra_none_remove Hi);
  pose proof (observe_infra_only net_event _ infra_none_net Hi).

(** Evaluate the readings on a trace whose segments are known. *)
Ltac readings :=
  unfold first_seen in *;
  repeat (progress (
    cbn [observe hd_error app map
         lookup_answer list_answer stop_call stop_failure state_answer
         task_query kill_call exit_handed closed_answer teardown_call
         teardown_ok remove_call net_event failure failed is_error is_some
         ev stopped_ok called projT1] in *;
    rewrite ?observe_app in *;
    rewrite ?(fun ctx l => observe_stopped_ok lookup_answer ctx l (fun _ => eq_refl)),
            ?(fun ctx l => observe_stopped_ok list_answer ctx l (fun _ => eq_refl)),
            ?(fun ctx l => observe_stopped_ok stop_failure ctx l (fun _ => eq_refl)),
            ?(fun ctx l => observe_stopped_ok state_answer ctx l (fun _ => eq_refl)),
            ?(fun ctx l => observe_stopped_ok task_query ctx l (fun _ => eq_refl)),
            ?(fun ctx l => observe_stopped_ok kill_call ctx l (fun _ => eq_refl)),
            ?(fun ctx l => observe_stopped_ok closed_answer ctx l (fun _ => eq_refl)),
            ?(fun ctx l => observe_stopped_ok teardown_call ctx l (fun _ => eq_refl)),
            ?(fun ctx l => observe_stopped_ok remove_call ctx l (fun _ => eq_refl)),
            ?(fun ctx l => observe_stopped_ok net_event ctx l (fun _ => eq_refl)),
            ?(fun ctx l => observe_stopped_ok failure ctx l (fun _ => eq_refl)),
            ?observe_stop_call_ok in *;
    repeat match goal with
           | Hz : observe ?f ?t = [] |- context[observe ?f ?t] => rewrite Hz
           | Hz : observe ?f ?t = [], Hy : context[observe ?f ?t] |- _ =>
               lazymatch Hy with Hz => fail | _ => rewrite Hz in Hy end
           end)).

Section Skeleton.
Context `{Package}.

Lemma stopSandboxContainer_footprint_of c ctx sandbox t r :
  possible (stopSandboxContainer c ctx sandbox) t r -> infra_only t.
Proof.
  apply (possible_every _ (fun t _ => infra_only t)).
  apply stopSandboxContainer_footprint.
Qed.
End Skeleton.

(** Symbolic execution of [StopPodSandbox]: the loop and the call of
    [stopSandboxContainer] are summarised by their lemmas. *)
Ltac exec_stop :=
  unfold StopPodSandbox, teardownPod;
  repeat (cbn;
    match goal with
    | |- forall _ : _, _ => intro
    | |- every_run (bind (stopContainers _ _ _) _) _ =>
        apply every_run_bind; eapply every_run_weaken; [ | apply stopContainers_runs ];
        let tl := fresh "tl" in let rl := fresh "rl" in let Hl := fresh "Hl" in
        intros tl rl Hl; destruct rl;
        [ destruct Hl as (? & ? & ? & ? & ? & -> & ->) | rewrite Hl; clear Hl ]
    | |- every_run (bind (stopSandboxContainer _ _ _) _) _ =>
        apply every_run_bind; eapply every_run_weaken; [ | apply every_run_possible ];
        let ti := fresh "ti" in let ri := fresh "ri" in let Hi := fresh "Hi" in
        intros ti ri Hi;
        let Hf := fresh "Hf" in
        pose proof (stopSandboxContainer_footprint_of _ _ _ _ _ Hi) as Hf;
        infra_facts Hf
    | |- every_run (match ?x with _ => _ end) _ => destruct x eqn:?
    | |- every_run (bind (match ?x with _ => _ end) _) _ => destruct x eqn:?
    | |- every_run ?p _ =>
        match p with
        | context[match ?x with _ => _ end] => is_var x; destruct x
        | context[if ?b then _ else _] => destruct b eqn:?
        end
    end);
  cbn.

Ltac conj := repeat match goal with |- _ /\ _ => split end.

Ltac same :=
  repeat match goal with
         | Hc : Some _ = Some _ |- _ => inversion Hc; subst; clear Hc
         end.


Lemma firstn_snoc {A} (a : list A) (x : A) (b : list A) :
  firstn (S (length a)) (a ++ x :: b) = a ++ [x].
Proof. induction a as [ | y a IH]; simpl; [ reflexivity | f_equal; exact IH ]. Qed.

Section Orchestrator.
Context `{Package} {W : Type} (h : handler W).




(** One call: the arguments of the teardown. *)
Lemma StopPodSandbox_teardown c ctx r :
  every_run (StopPodSandbox c ctx r) (fun t _ =>
    forall sandbox netns closed,
      first_seen lookup_answer t = Some (inl sandbox) ->
      first_seen closed_answer t = Some (netns, inl closed) ->
      Sandbox.NetNS sandbox = Some netns
      /\ observe teardown_call t =
         match netPlugin c with
         | Some plugin =>
             [Teardown plugin (Sandbox.ID sandbox)
                (if closed then "" else Sandbox.NetNSPath sandbox)
                (getPodCNILabels (Sandbox.ID sandbox) (Sandbox.Config sandbox))
                (toCNIPortMappings
                   (runtime.GetPortMappings (Sandbox.Config sandbox)))]
         | None => []
         end).
Proof.
  exec_stop.
  all: readings.
  all: try discriminate.
  all: same.
  all: split; [ assumption | reflexivity ].
Qed.

(** One call: the shape of the network step. *)
Lemma StopPodSandbox_network c ctx r :
  every_run (StopPodSandbox c ctx r) (fun t _ =>
    network_shape c (observe net_event t)).
Proof.
  exec_stop.
  all: readings.
  all: simpl; auto.
Qed.

(** C1, as amended.  In every call of [StopPodSandbox] the network
    step has one of four shapes: no call at all; the closed query
    alone (it failed, or no plugin is configured); the closed query and
    a teardown that failed; the closed query, one teardown that
    succeeded and then the removal of that same namespace.  So a call
    tears down at most once and removes the namespace exactly after a
    teardown that succeeded.  The reference in the sandbox is not
    cleared: a following call that finds the sandbox and whose closed
    query answers tears down again, with the empty path when the
    namespace reports closed and the sandbox's path otherwise. *)
Theorem StopPodSandbox_teardown_each_call
    (w : W) (c : criService) (ctx : Context)
    (r : option runtime.StopPodSandboxRequest) :
  let o := run h (StopPodSandbox c ctx r) w in
  let o' := run h (StopPodSandbox c ctx r) (final o) in
  network_shape c (observe net_event (trace o))
  /\ network_shape c (observe net_event (trace o'))
  /\ (forall plugin sandbox netns closed,
        netPlugin c = Some plugin ->
        first_seen lookup_answer (trace o') = Some (inl sandbox) ->
        first_seen closed_answer (trace o') = Some (netns, inl closed) ->
        Sandbox.NetNS sandbox = Some netns
        /\ observe teardown_call (trace o') =
           [Teardown plugin (Sandbox.ID sandbox)
              (if closed then "" else Sandbox.NetNSPath sandbox)
              (getPodCNILabels (Sandbox.ID sandbox) (Sandbox.Config sandbox))
              (toCNIPortMappings
                 (runtime.GetPortMappings (Sandbox.Config sandbox)))]).
Proof.
  cbv zeta. conj.
  - apply (every_run_sound h _ _ w (StopPodSandbox_network c ctx r)).
  - apply (every_run_sound h _ _ _ (StopPodSandbox_network c ctx r)).
  - intros plugin sandbox netns closed Hplugin Hlook Hclosed.
    pose proof (every_run_sound h _ _ (final (run h (StopPodSandbox c ctx r) w))
                  (StopPodSandbox_teardown c ctx r) sandbox netns closed Hlook Hclosed)
      as G.
    rewrite Hplugin in G. exact G.
Qed.


(** C7.  In a call of [StopPodSandbox] that found the sandbox and whose
    closed query answered, the query was put to the sandbox's own
    namespace and the network plugin, if one is configured, is asked
    exactly once to remove the network, for the sandbox's ID, with the
    empty path when the namespace reported closed and with the
    sandbox's namespace path otherwise. *)
Theorem StopPodSandbox_teardown_path
    (w : W) (c : criService) (ctx : Context)
    (r : option runtime.StopPodSandboxRequest)
    (sandbox : Sandbox.t) (netns : NetNS) (closed : bool) :
  let o := run h (StopPodSandbox c ctx r) w in
  first_seen lookup_answer (trace o) = Some (inl sandbox) ->
  first_seen closed_answer (trace o) = Some (netns, inl closed) ->
  Sandbox.NetNS sandbox = Some netns
  /\ observe teardown_call (trace o) =
     match netPlugin c with
     | Some plugin =>
         [Teardown plugin (Sandbox.ID sandbox)
            (if closed then "" else Sandbox.NetNSPath sandbox)
            (getPodCNILabels (Sandbox.ID sandbox) (Sandbox.Config sandbox))
            (toCNIPortMappings (runtime.GetPortMappings (Sandbox.Config sandbox)))]
     | None => []
     end.
Proof.
  cbv zeta. intros Hlook Hclosed.
  exact (every_run_sound h _ _ w (StopPodSandbox_teardown c ctx r)
           sandbox netns closed Hlook Hclosed).
Qed.

(** C8.  A call of [StopPodSandbox] that found the sandbox enumerates
    the container store; the containers it stops are, in the order of
    the enumeration and each with grace period 0, an initial part of
    those whose [SandboxID] equals the sandbox's ID, and all of them
    when no stop fails.  A stop that fails is the last call made, and
    its error is returned wrapped in a message with that container's
    ID. *)
Theorem StopPodSandbox_stops_members
    (w : W) (c : criService) (ctx : Context)
    (r : option runtime.StopPodSandboxRequest) (sandbox : Sandbox.t) :
  let o := run h (StopPodSandbox c ctx r) w in
  first_seen lookup_answer (trace o) = Some (inl sandbox) ->
  exists containers,
    first_seen list_answer (trace o) = Some containers
    /\ (exists n,
          observe stop_call (trace o) =
          map (fun cn => (cn, 0%Z)) (firstn n (members (Sandbox.ID sandbox) containers)))
    /\ (observe stop_failure (trace o) = [] ->
          observe stop_call (trace o) =
          map (fun cn => (cn, 0%Z)) (members (Sandbox.ID sandbox) containers))
    /\ (forall cn err,
          In (cn, err) (observe stop_failure (trace o)) ->
          ret o = inr (Wrapf err "failed to stop container %q"
                         [ArgString (Container.ID cn)])
          /\ ends_with (ev (stopContainer ctx cn 0%Z) (Some err)) (trace o)).
Proof.
  cbv zeta.
  apply (every_run_sound h (StopPodSandbox c ctx r)
           (fun t a =>
              first_seen lookup_answer t = Some (inl sandbox) ->
              exists containers,
                first_seen list_answer t = Some containers
                /\ (exists n,
                      observe stop_call t =
                      map (fun cn => (cn, 0%Z))
                        (firstn n (members (Sandbox.ID sandbox) containers)))
                /\ (observe stop_failure t = [] ->
                      observe stop_call t =
                      map (fun cn => (cn, 0%Z)) (members (Sandbox.ID sandbox) containers))
                /\ (forall cn err,
                      In (cn, err) (observe stop_failure t) ->
                      a = inr (Wrapf err "failed to stop container %q"
                                 [ArgString (Container.ID cn)])
                      /\ ends_with (ev (stopContainer ctx cn 0%Z) (Some err)) t))).
  exec_stop.
  all: readings.
  all: try discriminate.
  all: same.
  all: eexists; split; [ reflexivity | ].
  all: rewrite ?app_nil_r.
  all: conj.
  all: try solve [ intros; (reflexivity || discriminate) ].
  all: try solve [ intros cn err [] ].
  all: try solve [ eexists; symmetry; rewrite firstn_all; reflexivity ].
  - match goal with
    | Hm : members _ _ = ?before ++ _ :: _ |- _ =>
        exists (S (length before)); rewrite Hm, firstn_snoc, map_app, ?app_nil_r
    end.
    reflexivity.
  - intros cn err [Heq | []]. inversion Heq; subst. split; [ reflexivity | ends ].
Qed.


(** C10.  When the closed query of the sandbox's namespace answers an
    error, [StopPodSandbox] returns that error wrapped; the query is
    the last call it makes, so the network is not torn down and the
    namespace is not removed. *)
Theorem StopPodSandbox_closed_query_fails
    (w : W) (c : criService) (ctx : Context)
    (r : option runtime.StopPodSandboxRequest) (netns : NetNS) (err : error) :
  let o := run h (StopPodSandbox c ctx r) w in
  first_seen closed_answer (trace o) = Some (netns, inr err) ->
  (exists sandbox,
     first_seen lookup_answer (trace o) = Some (inl sandbox)
     /\ Sandbox.NetNS sandbox = Some netns)
  /\ ret o = inr (Wrap err "failed to check network namespace closed")
  /\ ends_with (ev (NetNS_Closed netns) (inr err)) (trace o)
  /\ observe teardown_call (trace o) = []
  /\ observe remove_call (trace o) = [].
Proof.
  cbv zeta.
  apply (every_run_sound h (StopPodSandbox c ctx r)
           (fun t a =>
              first_seen closed_answer t = Some (netns, inr err) ->
              (exists sandbox,
                 first_seen lookup_answer t = Some (inl sandbox)
                 /\ Sandbox.NetNS sandbox = Some netns)
              /\ a = inr (Wrap err "failed to check network namespace closed")
              /\ ends_with (ev (NetNS_Closed netns) (inr err)) t
              /\ observe teardown_call t = []
              /\ observe remove_call t = [])).
  exec_stop.
  all: readings.
  all: try discriminate.
  all: same.
  all: conj; try reflexivity; try solve [ ends ].
  all: eexists; split; [ reflexivity | assumption ].
Qed.

End Orchestrator.

(** ** Runs in the instrumented environment *)

Section Runs.
Import Fake.

(** Two calls in a row on a [NotReady] sandbox: both succeed, neither
    touches the task, and both tear the network down, the second with
    the empty path. *)
Example two_calls_on_not_ready :
  let o := stop service notReady in
  let o' := stop service (final o) in
  ret o = inl runtime.StopPodSandboxResponse_empty
  /\ ret o' = inl runtime.StopPodSandboxResponse_empty
  /\ observe kill_call (trace o ++ trace o') = []
  /\ map td_path (observe teardown_call (trace o)) = ["/var/run/netns/cni-sb1"]
  /\ map td_path (observe teardown_call (trace o')) = [""]
  /\ observe remove_call (trace o) = [5]
  /\ first_seen lookup_answer (trace o') = Some (inl sb1).
Proof. vm_compute. repeat split; reflexivity. Qed.

(** A [Ready] sandbox: the members "c1" and "c3" are stopped, then the
    task is killed, then the network is torn down. *)
Example one_call_on_ready :
  let o := stop service (initial StateReady true noFaults) in
  ret o = inl runtime.StopPodSandboxResponse_empty
  /\ observe stop_call (trace o) = [(c1, 0%Z); (c3, 0%Z)]
  /\ observe kill_call (trace o) = [(1, syscall.SIGKILL)]
  /\ stateOf 1 (final o) = StateNotReady.
Proof. vm_compute. repeat split; reflexivity. Qed.

(** An [Unknown] sandbox without task is reconciled and not killed. *)
Example unknown_without_task :
  let o := stopInfra unknownGone in
  ret o = None
  /\ observe kill_call (trace o) = []
  /\ map (fun p => eventtypes.ExitStatus (fst p)) (observe exit_handed (trace o)) = [255%Z]
  /\ stateOf 1 (final o) = StateNotReady.
Proof. vm_compute. repeat split; reflexivity. Qed.

(** The statement of C1 fails here: the first call tears down, removes
    the namespace and succeeds; the sandbox keeps its reference, and the
    second call tears down again. *)
Lemma second_call_tears_down_again :
  ~ no_second_teardown (H := package) handle notReady service 0 request.
Proof.
  unfold no_second_teardown. intros Hno.
  specialize (Hno eq_refl eq_refl).
  vm_compute in Hno. discriminate Hno.
Qed.

Lemma StopPodSandbox_teardown_each_call_witness :
  let o' := stop service (final (stop service notReady)) in
  Sandbox.NetNS sb1 = Some 5
  /\ observe teardown_call (trace o') =
     [Teardown 7 "sb1" "" [("K8S_POD_INFRA_CONTAINER_ID", "sb1")] []].
Proof.
  cbv zeta.
  refine (proj2 (proj2
    (StopPodSandbox_teardown_each_call (H := package) handle notReady service 0 request))
    7 sb1 5 true _ _ _); vm_compute; reflexivity.
Defined.

Lemma waitSandboxStop_one_of_three_witness :
  let o := run handle (waitSandboxStop service 0 sb1 5%Z) notReady in
  exists timer fired rest released,
    trace o = ev (time_NewTimer 5%Z) timer
              :: ev (select_wait 0 timer 1) fired
              :: rest ++ [ev (Timer_Stop timer) released]
    /\ wait_outcome 0 "sb1" fired rest (ret o).
Proof.
  exact (waitSandboxStop_one_of_three handle notReady service 0 sb1 5%Z).
Defined.

Lemma stopSandboxContainer_subscribes_before_kill_witness :
  let t := trace (stopInfra unknownLive) in
  exists before waitCtx exitCh between exitCtx pid stopCh after,
    firstn 9 t =
    before
    ++ ev (Task_Wait waitCtx 1) (inl exitCh)
    :: between
    ++ ev (startExitMonitor exitCtx "sb1" pid exitCh) stopCh
    :: after.
Proof.
  cbv zeta.
  refine (stopSandboxContainer_subscribes_before_kill (H := package)
            handle unknownLive service 0 sb1 1
            (firstn 9 (trace (stopInfra unknownLive)))
            (ev (Task_Kill 0 1 syscall.SIGKILL) None)
            (skipn 10 (trace (stopInfra unknownLive))) _ _ _);
    vm_compute; reflexivity.
Defined.

Lemma stopSandboxContainer_task_query_fails_witness :
  stopInfra unknownGone =
  after [ev (Status_Get 1) (Status.Build StateUnknown);
         ev (Container_Task 0 1) (inr ErrNotFound)]
    (run handle (@cleanupUnknownSandbox package 0 "sb1" sb1) unknownGone).
Proof.
  exact (stopSandboxContainer_task_query_fails (H := package)
           handle unknownGone service 0 sb1 (Status.Build StateUnknown) ErrNotFound
           unknownGone unknownGone eq_refl eq_refl).
Defined.

Lemma cleanupUnknownSandbox_synthetic_exit_witness :
  exists now result,
    trace (run handle (@cleanupUnknownSandbox package 0 "sb1" sb1) unknownGone) =
      [ev time_Now now;
       ev (handleSandboxExit 0
             {| eventtypes.ContainerID := "sb1";
                eventtypes.ID := "sb1";
                eventtypes.Pid := 0;
                eventtypes.ExitStatus := 255;
                eventtypes.ExitedAt := now |} sb1) result]
    /\ ret (run handle (@cleanupUnknownSandbox package 0 "sb1" sb1) unknownGone) = result.
Proof.
  exact (proj1 (cleanupUnknownSandbox_synthetic_exit (H := package)
                  handle unknownGone service 0 "sb1" sb1)).
Defined.


Lemma StopPodSandbox_teardown_path_witness :
  Sandbox.NetNS sb1 = Some 5
  /\ observe teardown_call (trace (stop service notReady)) =
     [Teardown 7 "sb1" "/var/run/netns/cni-sb1"
        [("K8S_POD_INFRA_CONTAINER_ID", "sb1")] []].
Proof.
  refine (StopPodSandbox_teardown_path (H := package)
            handle notReady service 0 request sb1 5 false _ _);
    vm_compute; reflexivity.
Defined.

Lemma StopPodSandbox_stops_members_witness :
  let o := stop service stopFails in
  exists containers,
    first_seen list_answer (trace o) = Some containers
    /\ (exists n,
          observe stop_call (trace o) =
          map (fun cn => (cn, 0%Z)) (firstn n (members "sb1" containers)))
    /\ (observe stop_failure (trace o) = [] ->
          observe stop_call (trace o) =
          map (fun cn => (cn, 0%Z)) (members "sb1" containers))
    /\ (forall cn err,
          In (cn, err) (observe stop_failure (trace o)) ->
          ret o = inr (Wrapf err "failed to stop container %q"
                         [ArgString (Container.ID cn)])
          /\ ends_with (ev (stopContainer 0 cn 0%Z) (Some err)) (trace o)).
Proof.
  cbv zeta.
  refine (StopPodSandbox_stops_members (H := package)
            handle stopFails service 0 request sb1 _);
    vm_compute; reflexivity.
Defined.


Lemma StopPodSandbox_closed_query_fails_witness :
  let o := stop service closedFails in
  (exists sandbox,
     first_seen lookup_answer (trace o) = Some (inl sandbox)
     /\ Sandbox.NetNS sandbox = Some 5)
  /\ ret o = inr (Wrap (ErrOther "stat netns") "failed to check network namespace closed")
  /\ ends_with (ev (NetNS_Closed 5) (inr (ErrOther "stat netns"))) (trace o)
  /\ observe teardown_call (trace o) = []
  /\ observe remove_call (trace o) = [].
Proof.
  cbv zeta.
  refine (StopPodSandbox_closed_query_fails (H := package)
            handle closedFails service 0 request 5 (ErrOther "stat netns") _);
    vm_compute; reflexivity.
Defined.

End Runs.

(** * Further properties of the source *)

Lemma ends_in_all l : ends_in l l.
Proof. exists []. reflexivity. Qed.

Lemma ends_in_cons l x t : ends_in l t -> ends_in l (x :: t).
Proof. intros [pre ->]. exists (x :: pre). reflexivity. Qed.

Lemma ends_in_app l t1 t2 : ends_in l t2 -> ends_in l (t1 ++ t2).
Proof. intros [pre ->]. exists (t1 ++ pre). rewrite app_assoc. reflexivity. Qed.

Ltac tails :=
  rewrite ?app_nil_r;
  repeat first [ apply ends_in_all | apply ends_in_cons | apply ends_in_app ].

(** Evaluate the readings of a trace of known length. *)
Ltac read_all :=
  unfold first_seen in *;
  cbn [observe hd_error app map rev snd fst length
       lookup_answer list_answer stop_call stop_failure state_answer
       task_query kill_call exit_handed closed_answer teardown_call
       teardown_ok remove_call net_event failure failed is_error is_some
       unmount_call unmount_failure log_call task_answer wait_answer
       monitor_call kill_answer withcancel_answer cancel_call timer_call
       select_answer exit_answer subscription_call step step_of
       ev stopped_ok called projT1] in *.

(** ** More on the infra-container stop state machine *)

Section InfraMore.
Context `{Package} {W : Type} (h : handler W).

Ltac infra :=
  unfold stopSandboxContainer, waitSandboxStop, cleanupUnknownSandbox, defer;
  exec; read_all.

(** X1.  A run of [stopSandboxContainer] sends at most one kill or hands
    over at most one synthetic exit event, never both.  A kill is
    [SIGKILL], under the caller's context, to the task that the task
    query of the sandbox's container answered. *)
Theorem stopSandboxContainer_kills_or_reconciles
    (w : W) (c : criService) (ctx : Context) (sandbox : Sandbox.t) :
  let t := trace (run h (stopSandboxContainer c ctx sandbox) w) in
  length (observe kill_call t) + length (observe exit_handed t) <= 1
  /\ (forall kctx task sig r,
        In (kctx, task, sig, r) (observe kill_answer t) ->
        kctx = ctx /\ sig = syscall.SIGKILL
        /\ first_seen task_answer t = Some (ctx, Sandbox.Container sandbox, inl task)).
Proof.
  cbv zeta.
  apply (every_run_sound h (stopSandboxContainer c ctx sandbox)
           (fun t _ =>
              length (observe kill_call t) + length (observe exit_handed t) <= 1
              /\ (forall kctx task sig r,
                    In (kctx, task, sig, r) (observe kill_answer t) ->
                    kctx = ctx /\ sig = syscall.SIGKILL
                    /\ first_seen task_answer t =
                       Some (ctx, Sandbox.Container sandbox, inl task)))).
  infra.
  all: split; [ cbn; auto | ].
  all: intros kctx task sig r Hin; cbn in Hin.
  all: try contradiction.
  all: destruct Hin as [Hin | []]; inversion Hin; subst; auto.
Qed.


(** X3.  When [task.Kill] answers nil or a not-found error,
    [stopSandboxContainer] goes on to wait: it starts one timer of
    [killContainerTimeout], makes one [select] on the caller's context
    and the sandbox's stopped channel, and returns what the case that
    fired gives.  When it answers any other error, that error is
    returned wrapped and no timer is started and no [select] made. *)
Theorem stopSandboxContainer_kill_answered
    (w : W) (c : criService) (ctx : Context) (sandbox : Sandbox.t)
    (kctx : Context) (task : containerd.Task) (sig : Signal) (r : option error) :
  let o := run h (stopSandboxContainer c ctx sandbox) w in
  first_seen kill_answer (trace o) = Some (kctx, task, sig, r) ->
  let waited :=
    observe timer_call (trace o) = [killContainerTimeout]
    /\ exists fired,
         observe select_answer (trace o) = [(ctx, Sandbox.Stopped sandbox, fired)]
         /\ wait_result (Sandbox.ID sandbox) fired (ret o) in
  match r with
  | None => waited
  | Some err =>
      if IsNotFound err then waited
      else ret o = Some (Wrap err "failed to kill sandbox container")
           /\ observe timer_call (trace o) = []
           /\ observe select_answer (trace o) = []
  end.
Proof.
  cbv zeta.
  apply (every_run_sound h (stopSandboxContainer c ctx sandbox)
           (fun t a =>
              first_seen kill_answer t = Some (kctx, task, sig, r) ->
              match r with
              | None =>
                  observe timer_call t = [killContainerTimeout]
                  /\ exists fired,
                       observe select_answer t = [(ctx, Sandbox.Stopped sandbox, fired)]
                       /\ wait_result (Sandbox.ID sandbox) fired a
              | Some err =>
                  if IsNotFound err
                  then observe timer_call t = [killContainerTimeout]
                       /\ exists fired,
                            observe select_answer t =
                              [(ctx, Sandbox.Stopped sandbox, fired)]
                            /\ wait_result (Sandbox.ID sandbox) fired a
                  else a = Some (Wrap err "failed to kill sandbox container")
                       /\ observe timer_call t = []
                       /\ observe select_answer t = []
              end)).
  infra.
  all: try discriminate.
  all: same.
  all: repeat match goal with
         | Hn : negb (IsNotFound ?e) = _ |- _ =>
             destruct (IsNotFound e); try discriminate Hn; clear Hn
         end.
  all: conj; try reflexivity.
  all: eexists; split; [ reflexivity | ].
  all: cbn; unfold wait_cancelled, wait_timed_out, wait_succeeded; eauto.
Qed.

(** X4.  When [task.Wait] answers an error, no kill is sent and the
    exit monitor is not started; the one cancel function obtained is
    called last.  A not-found error hands one synthetic exit event for
    the sandbox to [handleSandboxExit] and returns its answer; any other
    error is returned wrapped and no exit event is handed over. *)
Theorem stopSandboxContainer_wait_fails
    (w : W) (c : criService) (ctx : Context) (sandbox : Sandbox.t)
    (wctx : Context) (task : containerd.Task) (err : error) :
  let o := run h (stopSandboxContainer c ctx sandbox) w in
  first_seen wait_answer (trace o) = Some (wctx, task, inr err) ->
  observe kill_call (trace o) = []
  /\ observe monitor_call (trace o) = []
  /\ (exists parent waitCancel u,
        observe withcancel_answer (trace o) = [(parent, waitCancel)]
        /\ ends_in [ev (cancel waitCancel) u] (trace o))
  /\ (if IsNotFound err
      then (exists x, observe exit_handed (trace o) = [(x, sandbox)])
           /\ first_seen exit_answer (trace o) = Some (ret o)
      else observe exit_handed (trace o) = []
           /\ ret o = Some (Wrap err "failed to wait for task")).
Proof.
  cbv zeta.
  apply (every_run_sound h (stopSandboxContainer c ctx sandbox)
           (fun t a =>
              first_seen wait_answer t = Some (wctx, task, inr err) ->
              observe kill_call t = []
              /\ observe monitor_call t = []
              /\ (exists parent waitCancel u,
                    observe withcancel_answer t = [(parent, waitCancel)]
                    /\ ends_in [ev (cancel waitCancel) u] t)
              /\ (if IsNotFound err
                  then (exists x, observe exit_handed t = [(x, sandbox)])
                       /\ first_seen exit_answer t = Some a
                  else observe exit_handed t = []
                       /\ a = Some (Wrap err "failed to wait for task")))).
  infra.
  all: try discriminate.
  all: same.
  all: repeat match goal with
         | Hn : negb (IsNotFound ?e) = _ |- _ =>
             destruct (IsNotFound e); try discriminate Hn; clear Hn
         end.
  all: conj; try reflexivity.
  all: try (eexists _, _, _; split; [ reflexivity | unfold ev; tails ]).
  all: eexists; reflexivity.
Qed.

(** X5.  When the state read by [stopSandboxContainer] is not
    [Unknown], it makes none of the subscription calls (no context is
    made or cancelled, no [task.Wait], no exit monitor) and hands over
    no exit event; if the task query answers not-found, it returns nil
    without a kill. *)
Theorem stopSandboxContainer_known_state
    (w : W) (c : criService) (ctx : Context) (sandbox : Sandbox.t) (state : State) :
  let o := run h (stopSandboxContainer c ctx sandbox) w in
  first_seen state_answer (trace o) = Some state ->
  state <> StateUnknown ->
  observe subscription_call (trace o) = []
  /\ observe exit_handed (trace o) = []
  /\ (forall tctx container err,
        first_seen task_answer (trace o) = Some (tctx, container, inr err) ->
        IsNotFound err = true ->
        ret o = None /\ observe kill_call (trace o) = []).
Proof.
  cbv zeta. intros Hstate Hknown. revert Hstate.
  apply (every_run_sound h (stopSandboxContainer c ctx sandbox)
           (fun t a =>
              first_seen state_answer t = Some state ->
              observe subscription_call t = []
              /\ observe exit_handed t = []
              /\ (forall tctx container err,
                    first_seen task_answer t = Some (tctx, container, inr err) ->
                    IsNotFound err = true ->
                    a = None /\ observe kill_call t = []))).
  infra.
  all: same.
  all: try match goal with
         | Hu : State_eqb _ StateUnknown = true |- _ =>
             apply State_eqb_eq in Hu; contradiction
         end.
  all: conj; try reflexivity.
  all: intros tctx container err0 Hq Hnf; try discriminate Hq.
  all: same.
  all: try (rewrite Hnf in *; discriminate).
  all: split; reflexivity.
Qed.

(** X6.  [stopSandboxContainer] returns nil only if the [select] on
    the caller's context and the sandbox's stopped channel fired the
    stopped case, or [handleSandboxExit] answered nil, or the task query
    answered not-found while the state read was not [Unknown]. *)
Theorem stopSandboxContainer_nil_means_stopped
    (w : W) (c : criService) (ctx : Context) (sandbox : Sandbox.t) :
  let o := run h (stopSandboxContainer c ctx sandbox) w in
  ret o = None ->
  observe select_answer (trace o) = [(ctx, Sandbox.Stopped sandbox, case_Stopped)]
  \/ first_seen exit_answer (trace o) = Some None
  \/ (exists err,
        first_seen task_answer (trace o) =
          Some (ctx, Sandbox.Container sandbox, inr err)
        /\ IsNotFound err = true
        /\ first_seen state_answer (trace o) <> Some StateUnknown).
Proof.
  cbv zeta.
  apply (every_run_sound h (stopSandboxContainer c ctx sandbox)
           (fun t a =>
              a = None ->
              observe select_answer t = [(ctx, Sandbox.Stopped sandbox, case_Stopped)]
              \/ first_seen exit_answer t = Some None
              \/ (exists err,
                    first_seen task_answer t =
                      Some (ctx, Sandbox.Container sandbox, inr err)
                    /\ IsNotFound err = true
                    /\ first_seen state_answer t <> Some StateUnknown))).
  infra.
  all: try discriminate.
  all: try (left; reflexivity).
  all: try (right; left; congruence).
  all: right; right; eexists; conj; [ reflexivity | | ].
  all: try (destruct (IsNotFound _); [ reflexivity | discriminate ]).
  all: intros Hs; same.
  all: match goal with
       | Hu : State_eqb ?s StateUnknown = false, Hv : ?s = StateUnknown |- _ =>
           rewrite Hv in Hu; discriminate Hu
       | Hu : State_eqb (Status.State ?x) StateUnknown = false |- _ =>
           destruct x as [[]]; cbn in *; discriminate
       end.
Qed.

End InfraMore.

(** ** More on the orchestrator *)

Lemma infra_none_unmount e : infra_call (called e) = true -> unmount_call e = None.
Proof. destruct e as [[] x]; simpl; intros; (reflexivity || discriminate). Qed.
Lemma infra_none_unmount_failure e :
  infra_call (called e) = true -> unmount_failure e = None.
Proof. destruct e as [[] x]; simpl; intros; (reflexivity || discriminate). Qed.
Lemma infra_none_log e : infra_call (called e) = true -> log_call e = None.
Proof. destruct e as [[] x]; simpl; intros; (reflexivity || discriminate). Qed.

Lemma observe_step_infra t : infra_only t -> observe step t = repeat 4 (length t).
Proof.
  unfold infra_only. induction t as [ | e t IH]; simpl; intros Ht; [ reflexivity | ].
  apply andb_prop in Ht. destruct Ht as [He Ht]. rewrite (IH Ht). f_equal.
  destruct e as [[] x]; simpl in *; (reflexivity || discriminate).
Qed.

Lemma observe_step_stopped ctx (l : list Container.t) :
  observe step (map (stopped_ok ctx) l) = repeat 2 (length l).
Proof. induction l as [ | cn l IH]; simpl; [ reflexivity | rewrite IH; reflexivity ]. Qed.

Lemma ordered_from_nil n : ordered_from n [].
Proof. split; constructor. Qed.

Lemma ordered_from_cons n a l : n <= a -> ordered_from a l -> ordered_from n (a :: l).
Proof.
  intros Hna [Hs Hf]. split.
  - constructor; assumption.
  - constructor; [ assumption | ].
    eapply Forall_impl; [ | exact Hf ]. intros b Hb. eapply Nat.le_trans; eassumption.
Qed.

Lemma ordered_from_repeat n k m l :
  n <= k -> ordered_from k l -> ordered_from n (repeat k m ++ l).
Proof.
  intros Hnk Hl. induction m as [ | m IH]; simpl.
  - destruct Hl as [Hs Hf]. split; [ assumption | ].
    eapply Forall_impl; [ | exact Hf ]. intros b Hb. eapply Nat.le_trans; eassumption.
  - apply ordered_from_cons; [ assumption | ].
    destruct IH as [Hs Hf]. split; [ assumption | ].
    clear Hs Hf. induction m as [ | m IHm]; simpl.
    + exact (proj2 Hl).
    + constructor; [ apply le_n | exact IHm ].
Qed.

Lemma ordered_from_sorted n l : ordered_from n l -> StronglySorted le l.
Proof. intros [Hs _]. exact Hs. Qed.

Ltac ordered :=
  rewrite <- ?app_assoc; cbn [app];
  repeat first
    [ apply ordered_from_nil
    | apply ordered_from_cons; [ repeat constructor | ]
    | apply ordered_from_repeat; [ repeat constructor | ] ].

(** What the further readings see in a segment of calls of
    [stopSandboxContainer]. *)
Ltac more_infra_facts :=
  repeat match goal with
         | Hf : infra_only ?ti |- _ =>
             lazymatch goal with
             | _ : observe step ti = _ |- _ => fail
             | _ =>
                 pose proof (observe_infra_only unmount_call _ infra_none_unmount Hf);
                 pose proof (observe_infra_only unmount_failure _
                               infra_none_unmount_failure Hf);
                 pose proof (observe_infra_only log_call _ infra_none_log Hf);
                 pose proof (observe_step_infra _ Hf)
             end
         end.

Ltac read_stop :=
  more_infra_facts;
  unfold first_seen in *;
  repeat (progress (
    cbn [observe hd_error app map rev snd fst length
         lookup_answer list_answer stop_call stop_failure state_answer
         task_query kill_call exit_handed closed_answer teardown_call
         teardown_ok remove_call net_event failure failed is_error is_some
         unmount_call unmount_failure log_call step step_of
         ev stopped_ok called projT1] in *;
    rewrite ?observe_app in *;
    rewrite ?(fun ctx l => observe_stopped_ok lookup_answer ctx l (fun _ => eq_refl)),
            ?(fun ctx l => observe_stopped_ok list_answer ctx l (fun _ => eq_refl)),
            ?(fun ctx l => observe_stopped_ok stop_failure ctx l (fun _ => eq_refl)),
            ?(fun ctx l => observe_stopped_ok state_answer ctx l (fun _ => eq_refl)),
            ?(fun ctx l => observe_stopped_ok task_query ctx l (fun _ => eq_refl)),
            ?(fun ctx l => observe_stopped_ok kill_call ctx l (fun _ => eq_refl)),
            ?(fun ctx l => observe_stopped_ok closed_answer ctx l (fun _ => eq_refl)),
            ?(fun ctx l => observe_stopped_ok teardown_call ctx l (fun _ => eq_refl)),
            ?(fun ctx l => observe_stopped_ok remove_call ctx l (fun _ => eq_refl)),
            ?(fun ctx l => observe_stopped_ok net_event ctx l (fun _ => eq_refl)),
            ?(fun ctx l => observe_stopped_ok failure ctx l (fun _ => eq_refl)),
            ?(fun ctx l => observe_stopped_ok unmount_call ctx l (fun _ => eq_refl)),
            ?(fun ctx l => observe_stopped_ok unmount_failure ctx l (fun _ => eq_refl)),
            ?(fun ctx l => observe_stopped_ok log_call ctx l (fun _ => eq_refl)),
            ?observe_stop_call_ok, ?observe_step_stopped in *;
    repeat match goal with
           | Hz : observe ?f ?t = [] |- context[observe ?f ?t] => rewrite Hz
           | Hz : observe ?f ?t = [], Hy : context[observe ?f ?t] |- _ =>
               lazymatch Hy with Hz => fail | _ => rewrite Hz in Hy end
           | Hz : observe step ?t = repeat _ _ |- context[observe step ?t] => rewrite Hz
           end)).

Section OrchestratorMore.
Context `{Package} {W : Type} (h : handler W).

(** X7.  The calls of [StopPodSandbox] happen in the order of its
    steps and never go back: the lookup, the enumeration, the stops of
    member containers, the unmount, the stop of the sandbox container,
    the network, the log. *)
Theorem StopPodSandbox_steps_in_order
    (w : W) (c : criService) (ctx : Context)
    (r : option runtime.StopPodSandboxRequest) :
  StronglySorted le (observe step (trace (run h (StopPodSandbox c ctx r) w))).
Proof.
  apply (every_run_sound h (StopPodSandbox c ctx r)
           (fun t _ => StronglySorted le (observe step t))).
  exec_stop.
  all: read_stop.
  all: apply (ordered_from_sorted 0).
  all: ordered.
Qed.

(** X8.  When the lookup of the sandbox fails, [StopPodSandbox] makes
    no other call and returns the error wrapped in a message with the id
    of the request; the returned error is not-found exactly when the
    store's error is. *)
Theorem StopPodSandbox_lookup_fails
    (w : W) (c : criService) (ctx : Context)
    (r : option runtime.StopPodSandboxRequest) (err : error) :
  let o := run h (StopPodSandbox c ctx r) w in
  first_seen lookup_answer (trace o) = Some (inr err) ->
  trace o = [ev (sandboxStore_Get (runtime.GetPodSandboxId r)) (inr err)]
  /\ exists e,
       ret o = inr e
       /\ e = Wrapf err "an error occurred when try to find sandbox %q"
                [ArgString (runtime.GetPodSandboxId r)]
       /\ IsNotFound e = IsNotFound err.
Proof.
  cbv zeta.
  apply (every_run_sound h (StopPodSandbox c ctx r)
           (fun t a =>
              first_seen lookup_answer t = Some (inr err) ->
              t = [ev (sandboxStore_Get (runtime.GetPodSandboxId r)) (inr err)]
              /\ exists e,
                   a = inr e
                   /\ e = Wrapf err "an error occurred when try to find sandbox %q"
                            [ArgString (runtime.GetPodSandboxId r)]
                   /\ IsNotFound e = IsNotFound err)).
  exec_stop.
  all: read_stop.
  all: try discriminate.
  all: same.
  split; [ reflexivity | ].
  eexists. conj; reflexivity.
Qed.

(** X9.  When unmounting the sandbox files fails, [StopPodSandbox]
    returns the error wrapped.  All member containers were stopped
    before; the unmount, called with the sandbox's full ID and config,
    is the last call: the state is not read, no task is queried and the
    network is not touched. *)
Theorem StopPodSandbox_unmount_fails
    (w : W) (c : criService) (ctx : Context)
    (r : option runtime.StopPodSandboxRequest) (err : error) :
  let o := run h (StopPodSandbox c ctx r) w in
  first_seen unmount_failure (trace o) = Some err ->
  ret o = inr (Wrap err "failed to unmount sandbox files")
  /\ (exists sandbox containers,
        first_seen lookup_answer (trace o) = Some (inl sandbox)
        /\ first_seen list_answer (trace o) = Some containers
        /\ observe stop_call (trace o) =
           map (fun cn => (cn, 0%Z)) (members (Sandbox.ID sandbox) containers)
        /\ ends_in [ev (unmountSandboxFiles (Sandbox.ID sandbox) (Sandbox.Config sandbox))
                      (Some err)] (trace o))
  /\ observe state_answer (trace o) = []
  /\ observe task_query (trace o) = []
  /\ observe net_event (trace o) = [].
Proof.
  cbv zeta.
  apply (every_run_sound h (StopPodSandbox c ctx r)
           (fun t a =>
              first_seen unmount_failure t = Some err ->
              a = inr (Wrap err "failed to unmount sandbox files")
              /\ (exists sandbox containers,
                    first_seen lookup_answer t = Some (inl sandbox)
                    /\ first_seen list_answer t = Some containers
                    /\ observe stop_call t =
                       map (fun cn => (cn, 0%Z)) (members (Sandbox.ID sandbox) containers)
                    /\ ends_in [ev (unmountSandboxFiles (Sandbox.ID sandbox)
                                      (Sandbox.Config sandbox)) (Some err)] t)
              /\ observe state_answer t = []
              /\ observe task_query t = []
              /\ observe net_event t = [])).
  exec_stop.
  all: read_stop.
  all: try discriminate.
  all: same.
  conj; try reflexivity.
  eexists _, _. conj; try reflexivity.
  - rewrite app_nil_r. reflexivity.
  - unfold ev. tails.
Qed.

(** X10.  In a call of [StopPodSandbox] that read a state [Ready] or
    [Unknown], the record contains a complete run of
    [stopSandboxContainer] with no network call before or in it; if
    that run returned an error, nothing is called after it and the
    error is returned wrapped in a message with the sandbox's ID and the
    state read. *)
Theorem StopPodSandbox_infra_fails
    (w : W) (c : criService) (ctx : Context)
    (r : option runtime.StopPodSandboxRequest)
    (sandbox : Sandbox.t) (state : State) :
  let o := run h (StopPodSandbox c ctx r) w in
  first_seen lookup_answer (trace o) = Some (inl sandbox) ->
  first_seen state_answer (trace o) = Some state ->
  running_or_unknown state = true ->
  exists pre ti ri post,
    trace o = pre ++ ti ++ post
    /\ possible (stopSandboxContainer c ctx sandbox) ti ri
    /\ observe net_event (pre ++ ti) = []
    /\ (forall err,
          ri = Some err ->
          post = []
          /\ ret o = inr (Wrapf err "failed to stop sandbox container %q in %q state"
                            [ArgString (Sandbox.ID sandbox); ArgState state])).
Proof.
  cbv zeta. intros Hlook Hstate Hrun. revert Hlook Hstate.
  apply (every_run_sound h (StopPodSandbox c ctx r)
           (fun t a =>
              first_seen lookup_answer t = Some (inl sandbox) ->
              first_seen state_answer t = Some state ->
              exists pre ti ri post,
                t = pre ++ ti ++ post
                /\ possible (stopSandboxContainer c ctx sandbox) ti ri
                /\ observe net_event (pre ++ ti) = []
                /\ (forall err,
                      ri = Some err ->
                      post = []
                      /\ a = inr (Wrapf err
                                    "failed to stop sandbox container %q in %q state"
                                    [ArgString (Sandbox.ID sandbox); ArgState state])))).
  unfold running_or_unknown in Hrun.
  exec_stop.
  all: read_stop.
  all: try discriminate.
  all: same.
  all: try congruence.
  all: eexists (_ :: _ :: _ ++ [_; _]), _, _, _.
  all: conj; [ simpl; rewrite <- app_assoc; reflexivity | eassumption | | ].
  all: try (intros err0 Herr; try discriminate Herr; inversion Herr; subst;
            split; reflexivity).
  all: read_stop; reflexivity.
Qed.

(** X11.  When the network plugin fails, [StopPodSandbox] returns its
    error wrapped in a message with the sandbox's ID; the namespace is
    not removed and the success message is not logged. *)
Theorem StopPodSandbox_teardown_fails
    (w : W) (c : criService) (ctx : Context)
    (r : option runtime.StopPodSandboxRequest)
    (sandbox : Sandbox.t) (netns : NetNS) (closed : bool) (td : teardown) (err : error) :
  let o := run h (StopPodSandbox c ctx r) w in
  first_seen lookup_answer (trace o) = Some (inl sandbox) ->
  observe net_event (trace o) = [NetClosed netns (inl closed); NetTeardown td (Some err)] ->
  ret o = inr (Wrapf err "failed to destroy network for sandbox %q"
                 [ArgString (Sandbox.ID sandbox)])
  /\ observe remove_call (trace o) = []
  /\ observe log_call (trace o) = [].
Proof.
  cbv zeta.
  apply (every_run_sound h (StopPodSandbox c ctx r)
           (fun t a =>
              first_seen lookup_answer t = Some (inl sandbox) ->
              observe net_event t =
                [NetClosed netns (inl closed); NetTeardown td (Some err)] ->
              a = inr (Wrapf err "failed to destroy network for sandbox %q"
                         [ArgString (Sandbox.ID sandbox)])
              /\ observe remove_call t = []
              /\ observe log_call t = [])).
  exec_stop.
  all: read_stop.
  all: try discriminate.
  all: same.
  all: try match goal with Hn : _ = [_; _] |- _ => inversion Hn; subst end.
  all: conj; reflexivity.
Qed.

(** X12.  When removing the namespace fails, [StopPodSandbox] returns
    the error wrapped in a message with the sandbox's ID; the removal is
    the last call, and the success message is not logged. *)
Theorem StopPodSandbox_remove_fails
    (w : W) (c : criService) (ctx : Context)
    (r : option runtime.StopPodSandboxRequest)
    (sandbox : Sandbox.t) (netns : NetNS) (err : error) :
  let o := run h (StopPodSandbox c ctx r) w in
  first_seen lookup_answer (trace o) = Some (inl sandbox) ->
  In (NetRemove netns (Some err)) (observe net_event (trace o)) ->
  ret o = inr (Wrapf err "failed to remove network namespace for sandbox %q"
                 [ArgString (Sandbox.ID sandbox)])
  /\ ends_in [ev (NetNS_Remove netns) (Some err)] (trace o)
  /\ observe log_call (trace o) = [].
Proof.
  cbv zeta.
  apply (every_run_sound h (StopPodSandbox c ctx r)
           (fun t a =>
              first_seen lookup_answer t = Some (inl sandbox) ->
              In (NetRemove netns (Some err)) (observe net_event t) ->
              a = inr (Wrapf err "failed to remove network namespace for sandbox %q"
                         [ArgString (Sandbox.ID sandbox)])
              /\ ends_in [ev (NetNS_Remove netns) (Some err)] t
              /\ observe log_call t = [])).
  exec_stop.
  all: read_stop.
  all: cbn [In] in *.
  all: try contradiction.
  all: same.
  all: repeat match goal with
         | Hin : _ \/ _ |- _ => destruct Hin as [Hin | Hin]
         | Hin : False |- _ => destruct Hin
         end.
  all: try solve [ match goal with Hn : _ = _ |- _ => discriminate Hn end ].
  all: match goal with Hn : NetRemove _ _ = NetRemove _ _ |- _ => inversion Hn; subst end.
  all: conj; try reflexivity.
  all: unfold ev; tails.
Qed.

(** X13.  If [StopPodSandbox] returns a response, then the sandbox was
    found, every member container was stopped and none failed, the
    sandbox files were unmounted once with the sandbox's full ID and
    config, the network step is empty for a sandbox without namespace
    and otherwise is a closed query, a teardown and a removal of that
    namespace that all succeeded, and the last call logs the success
    for the sandbox's ID. *)
Theorem StopPodSandbox_success
    (w : W) (c : criService) (ctx : Context)
    (r : option runtime.StopPodSandboxRequest)
    (response : runtime.StopPodSandboxResponse) :
  let o := run h (StopPodSandbox c ctx r) w in
  ret o = inl response ->
  exists sandbox containers,
    first_seen lookup_answer (trace o) = Some (inl sandbox)
    /\ first_seen list_answer (trace o) = Some containers
    /\ observe stop_call (trace o) =
       map (fun cn => (cn, 0%Z)) (members (Sandbox.ID sandbox) containers)
    /\ observe stop_failure (trace o) = []
    /\ observe unmount_call (trace o) = [(Sandbox.ID sandbox, Sandbox.Config sandbox)]
    /\ observe unmount_failure (trace o) = []
    /\ match Sandbox.NetNS sandbox with
       | None => observe net_event (trace o) = []
       | Some netns =>
           exists closed td,
             observe net_event (trace o) =
               [NetClosed netns (inl closed); NetTeardown td None; NetRemove netns None]
       end
    /\ ends_in [ev (logrus_Infof "TearDown network for sandbox %q successfully"
                      [ArgString (Sandbox.ID sandbox)]) tt] (trace o).
Proof.
  cbv zeta.
  apply (every_run_sound h (StopPodSandbox c ctx r)
           (fun t a =>
              a = inl response ->
              exists sandbox containers,
                first_seen lookup_answer t = Some (inl sandbox)
                /\ first_seen list_answer t = Some containers
                /\ observe stop_call t =
                   map (fun cn => (cn, 0%Z)) (members (Sandbox.ID sandbox) containers)
                /\ observe stop_failure t = []
                /\ observe unmount_call t =
                   [(Sandbox.ID sandbox, Sandbox.Config sandbox)]
                /\ observe unmount_failure t = []
                /\ match Sandbox.NetNS sandbox with
                   | None => observe net_event t = []
                   | Some netns =>
                       exists closed td,
                         observe net_event t =
                           [NetClosed netns (inl closed); NetTeardown td None;
                            NetRemove netns None]
                   end
                /\ ends_in [ev (logrus_Infof
                                  "TearDown network for sandbox %q successfully"
                                  [ArgString (Sandbox.ID sandbox)]) tt] t)).
  exec_stop.
  all: try solve [ match goal with Hn : _ = _ |- _ => discriminate Hn end ].
  all: eexists _, _.
  all: read_stop.
  all: rewrite ?app_nil_r.
  all: match goal with Hns : Sandbox.NetNS _ = _ |- _ => rewrite Hns end.
  all: conj; try reflexivity.
  all: try (eexists _, _; reflexivity).
  all: repeat match goal with u : unit |- _ => destruct u end.
  all: unfold ev; tails.
Qed.

(** X14.  [StopPodSandbox] returns an error exactly when it does not
    log the success message. *)
Theorem StopPodSandbox_logs_iff_success
    (w : W) (c : criService) (ctx : Context)
    (r : option runtime.StopPodSandboxRequest) :
  let o := run h (StopPodSandbox c ctx r) w in
  (exists e, ret o = inr e) <-> observe log_call (trace o) = [].
Proof.
  cbv zeta.
  apply (every_run_sound h (StopPodSandbox c ctx r)
           (fun t a => (exists e, a = inr e) <-> observe log_call t = [])).
  exec_stop.
  all: read_stop.
  all: split; [ intros [e0 He0] | intros Hlog ].
  all: try reflexivity.
  all: try discriminate.
  all: eexists; reflexivity.
Qed.

(** X15.  For a sandbox without a network namespace of its own,
    [StopPodSandbox] makes no network call, and its whole run is the
    same whether a network plugin is configured or not. *)
Theorem StopPodSandbox_host_network
    (w w1 : W) (c c' : criService) (ctx : Context)
    (r : option runtime.StopPodSandboxRequest) (sandbox : Sandbox.t) :
  h (sandboxStore_Get (runtime.GetPodSandboxId r)) w = (inl sandbox, w1) ->
  Sandbox.NetNS sandbox = None ->
  run h (StopPodSandbox c ctx r) w = run h (StopPodSandbox c' ctx r) w
  /\ observe net_event (trace (run h (StopPodSandbox c ctx r) w)) = [].
Proof.
  intros Hlook Hnil. split.
  - unfold StopPodSandbox. cbn [bind perform].
    rewrite !run_Do, Hlook. cbn [fst snd]. rewrite Hnil. reflexivity.
  - assert (Hfirst : first_seen lookup_answer (trace (run h (StopPodSandbox c ctx r) w))
                     = Some (inl sandbox)).
    { unfold StopPodSandbox. cbn [bind perform]. rewrite run_Do, Hlook. reflexivity. }
    revert Hfirst.
    apply (every_run_sound h (StopPodSandbox c ctx r)
             (fun t _ =>
                first_seen lookup_answer t = Some (inl sandbox) ->
                observe net_event t = [])).
    exec_stop.
    all: read_stop.
    all: try discriminate.
    all: same.
    all: try congruence.
    all: reflexivity.
Qed.

End OrchestratorMore.

(** ** Further runs in the instrumented environment *)

Section MoreRuns.
Import Fake.

Lemma stopSandboxContainer_kill_answered_witness :
  let o := stopInfra unknownLive in
  observe timer_call (trace o) = [120000000000%Z]
  /\ exists fired,
       observe select_answer (trace o) = [(0, 1, fired)]
       /\ wait_result "sb1" fired (ret o).
Proof.
  cbv zeta.
  refine (stopSandboxContainer_kill_answered (H := package)
            handle unknownLive service 0 sb1 0 1 syscall.SIGKILL None _);
    vm_compute; reflexivity.
Defined.

Lemma stopSandboxContainer_wait_fails_witness :
  let o := stopInfra waitFails in
  observe kill_call (trace o) = []
  /\ observe monitor_call (trace o) = []
  /\ (exists parent waitCancel u,
        observe withcancel_answer (trace o) = [(parent, waitCancel)]
        /\ ends_in [ev (cancel waitCancel) u] (trace o))
  /\ (exists x, observe exit_handed (trace o) = [(x, sb1)])
  /\ first_seen exit_answer (trace o) = Some (ret o).
Proof.
  cbv zeta.
  pose proof (stopSandboxContainer_wait_fails (H := package)
                handle waitFails service 0 sb1 11 1 ErrNotFound eq_refl)
    as (Hkill & Hmon & Hcancel & Hexit & Hret).
  conj; assumption.
Defined.

Lemma stopSandboxContainer_known_state_witness :
  let o := stopInfra readyLive in
  observe subscription_call (trace o) = []
  /\ observe exit_handed (trace o) = []
  /\ (forall tctx container err,
        first_seen task_answer (trace o) = Some (tctx, container, inr err) ->
        IsNotFound err = true ->
        ret o = None /\ observe kill_call (trace o) = []).
Proof.
  cbv zeta.
  refine (stopSandboxContainer_known_state (H := package)
            handle readyLive service 0 sb1 StateReady _ _);
    [ vm_compute; reflexivity | discriminate ].
Defined.

Lemma stopSandboxContainer_nil_means_stopped_witness :
  let o := stopInfra readyLive in
  observe select_answer (trace o) = [(0, 1, case_Stopped)]
  \/ first_seen exit_answer (trace o) = Some None
  \/ (exists err,
        first_seen task_answer (trace o) = Some (0, 1, inr err)
        /\ IsNotFound err = true
        /\ first_seen state_answer (trace o) <> Some StateUnknown).
Proof.
  cbv zeta.
  refine (stopSandboxContainer_nil_means_stopped (H := package)
            handle readyLive service 0 sb1 _);
    vm_compute; reflexivity.
Defined.

Lemma StopPodSandbox_lookup_fails_witness :
  let o := run handle (@StopPodSandbox package service 0 requestMissing) notReady in
  trace o = [ev (sandboxStore_Get "missing") (inr ErrNotFound)]
  /\ exists e,
       ret o = inr e
       /\ e = Wrapf ErrNotFound "an error occurred when try to find sandbox %q"
                [ArgString "missing"]
       /\ IsNotFound e = true.
Proof.
  cbv zeta.
  refine (StopPodSandbox_lookup_fails (H := package)
            handle notReady service 0 requestMissing ErrNotFound _);
    vm_compute; reflexivity.
Defined.

Lemma StopPodSandbox_unmount_fails_witness :
  let o := stop service unmountFails in
  ret o = inr (Wrap (ErrOther "umount") "failed to unmount sandbox files")
  /\ (exists sandbox containers,
        first_seen lookup_answer (trace o) = Some (inl sandbox)
        /\ first_seen list_answer (trace o) = Some containers
        /\ observe stop_call (trace o) =
           map (fun cn => (cn, 0%Z)) (members (Sandbox.ID sandbox) containers)
        /\ ends_in [ev (unmountSandboxFiles (Sandbox.ID sandbox) (Sandbox.Config sandbox))
                      (Some (ErrOther "umount"))] (trace o))
  /\ observe state_answer (trace o) = []
  /\ observe task_query (trace o) = []
  /\ observe net_event (trace o) = [].
Proof.
  cbv zeta.
  refine (StopPodSandbox_unmount_fails (H := package)
            handle unmountFails service 0 request (ErrOther "umount") _);
    vm_compute; reflexivity.
Defined.

Lemma StopPodSandbox_infra_fails_witness :
  let o := stop service killFails in
  exists pre ti ri post,
    trace o = pre ++ ti ++ post
    /\ possible (@stopSandboxContainer package service 0 sb1) ti ri
    /\ observe net_event (pre ++ ti) = []
    /\ (forall err,
          ri = Some err ->
          post = []
          /\ ret o = inr (Wrapf err "failed to stop sandbox container %q in %q state"
                            [ArgString "sb1"; ArgState StateReady])).
Proof.
  cbv zeta.
  refine (StopPodSandbox_infra_fails (H := package)
            handle killFails service 0 request sb1 StateReady _ _ _);
    vm_compute; reflexivity.
Defined.

Lemma StopPodSandbox_teardown_fails_witness :
  let o := stop service teardownFails in
  ret o = inr (Wrapf (ErrOther "cni del") "failed to destroy network for sandbox %q"
                 [ArgString "sb1"])
  /\ observe remove_call (trace o) = []
  /\ observe log_call (trace o) = [].
Proof.
  cbv zeta.
  refine (StopPodSandbox_teardown_fails (H := package)
            handle teardownFails service 0 request sb1 5 false
            (Teardown 7 "sb1" "/var/run/netns/cni-sb1"
               [("K8S_POD_INFRA_CONTAINER_ID", "sb1")] [])
            (ErrOther "cni del") _ _);
    vm_compute; reflexivity.
Defined.

Lemma StopPodSandbox_remove_fails_witness :
  let o := stop service removeFails in
  ret o = inr (Wrapf (ErrOther "unmount netns")
                 "failed to remove network namespace for sandbox %q" [ArgString "sb1"])
  /\ ends_in [ev (NetNS_Remove 5) (Some (ErrOther "unmount netns"))] (trace o)
  /\ observe log_call (trace o) = [].
Proof.
  cbv zeta.
  refine (StopPodSandbox_remove_fails (H := package)
            handle removeFails service 0 request sb1 5 (ErrOther "unmount netns") _ _);
    vm_compute; [ reflexivity | auto ].
Defined.

Lemma StopPodSandbox_success_witness :
  let o := stop service notReady in
  exists sandbox containers,
    first_seen lookup_answer (trace o) = Some (inl sandbox)
    /\ first_seen list_answer (trace o) = Some containers
    /\ observe stop_call (trace o) =
       map (fun cn => (cn, 0%Z)) (members (Sandbox.ID sandbox) containers)
    /\ observe stop_failure (trace o) = []
    /\ observe unmount_call (trace o) = [(Sandbox.ID sandbox, Sandbox.Config sandbox)]
    /\ observe unmount_failure (trace o) = []
    /\ match Sandbox.NetNS sandbox with
       | None => observe net_event (trace o) = []
       | Some netns =>
           exists closed td,
             observe net_event (trace o) =
               [NetClosed netns (inl closed); NetTeardown td None; NetRemove netns None]
       end
    /\ ends_in [ev (logrus_Infof "TearDown network for sandbox %q successfully"
                      [ArgString (Sandbox.ID sandbox)]) tt] (trace o).
Proof.
  cbv zeta.
  refine (StopPodSandbox_success (H := package)
            handle notReady service 0 request runtime.StopPodSandboxResponse_empty _);
    vm_compute; reflexivity.
Defined.

Lemma StopPodSandbox_host_network_witness :
  run handle (@StopPodSandbox package service 0 requestHost) hostNetwork =
  run handle (@StopPodSandbox package unconfigured 0 requestHost) hostNetwork
  /\ observe net_event
       (trace (run handle (@StopPodSandbox package service 0 requestHost) hostNetwork)) = [].
Proof.
  refine (StopPodSandbox_host_network (H := package)
            handle hostNetwork hostNetwork service unconfigured 0 requestHost sbHost _ _);
    reflexivity.
Defined.

(** The host-network sandbox is stopped without a network plugin. *)
Example host_network_without_plugin :
  ret (run handle (@StopPodSandbox package unconfigured 0 requestHost) hostNetwork)
  = inl runtime.StopPodSandboxResponse_empty.
Proof. vm_compute. reflexivity. Qed.

End MoreRuns.
